(** * Texas Hold'em engine: cards, hand evaluator, chip ledger, betting engine

    A shallow embedding of [poker/cards.py], [poker/hand_evaluator.py],
    [poker/player.py] and [poker/game.py].

    Conventions.
    - Python integers are [Z]; list positions and counts are [nat].
    - A raised exception ([ValueError], [IndexError]) is [None] in the
      option monad; a normal return is [Some].
    - [Player] objects are shared by reference between the table and every
      derived list ([active_players], side-pot eligibility, winners).  The
      seat list [players] is the store and a reference is a seat number. *)

From Stdlib Require Import ZArith List Bool Lia Permutation.
From stdpp Require Import base option list sorting gmap sets strings pretty.

(** ** Python built-ins used by the sources *)
Module Py.

(** [collections.Counter(l)]: keys in order of first occurrence, each with
    its number of occurrences. *)
Fixpoint Counter {A} `{EqDecision A} (l : list A) : list (A * nat) :=
  match l with
  | [] => []
  | x :: t =>
      (x, S (length (filter (λ y, y = x) t)))
        :: filter (λ kc, kc.1 ≠ x) (Counter t)
  end.

(** [[k for k, count in c.items() if count == n]] *)
Definition keys_with {A} (n : nat) (c : list (A * nat)) : list A :=
  (filter (λ kc, kc.2 = n) c).*1.

(** [n in c.values()] *)
Definition in_values {A} (n : nat) (c : list (A * nat)) : bool :=
  bool_decide (n ∈ c.*2).

(** Stable insertion sort; [before x y] says that [x] may stand in front
    of [y].  An element is put in front of the first element it may
    precede, so equal keys keep their original order. *)
Fixpoint insert_by {A} (before : A → A → bool) (x : A) (l : list A) : list A :=
  match l with
  | [] => [x]
  | y :: t => if before x y then x :: y :: t else y :: insert_by before x t
  end.

Fixpoint sort_by {A} (before : A → A → bool) (l : list A) : list A :=
  match l with
  | [] => []
  | x :: t => insert_by before x (sort_by before t)
  end.

(** [sorted(l)] and [sorted(l, reverse=True)] on integers. *)
Definition sorted (l : list Z) : list Z := sort_by Z.leb l.
Definition sorted_reverse (l : list Z) : list Z := sort_by (λ x y, Z.leb y x) l.

(** [set(l)]; the iteration order of a Python set is unspecified, and the
    sources only ever sort it. *)
Definition set (l : list Z) : list Z := remove_dups l.

(** [a <= b] on lists of integers (lexicographic, a proper prefix is
    smaller). *)
Fixpoint list_le (a b : list Z) : bool :=
  match a, b with
  | [], _ => true
  | _ :: _, [] => false
  | x :: a', y :: b' =>
      if Z.ltb x y then true
      else if Z.ltb y x then false
      else list_le a' b'
  end.

(** [itertools.combinations(l, k)], in its lexicographic order. *)
Fixpoint combinations {A} (l : list A) (k : nat) : list (list A) :=
  match k with
  | O => [[]]
  | S k' =>
      match l with
      | [] => []
      | x :: t => map (cons x) (combinations t k') ++ combinations t k
      end
  end.

(** [zip(a, b)] *)
Fixpoint zip {A B} (a : list A) (b : list B) : list (A * B) :=
  match a, b with
  | x :: a', y :: b' => (x, y) :: zip a' b'
  | _, _ => []
  end.

End Py.

(** ** poker/cards.py *)
Module Cards.

Inductive Suit := HEARTS | DIAMONDS | CLUBS | SPADES.
Inductive Rank :=
  TWO | THREE | FOUR | FIVE | SIX | SEVEN | EIGHT | NINE | TEN
| JACK | QUEEN | KING | ACE.

Definition rank_value (r : Rank) : Z :=
  match r with
  | TWO => 2 | THREE => 3 | FOUR => 4 | FIVE => 5 | SIX => 6 | SEVEN => 7
  | EIGHT => 8 | NINE => 9 | TEN => 10 | JACK => 11 | QUEEN => 12
  | KING => 13 | ACE => 14
  end%Z.

Record Card := mkCard { rank : Rank; suit : Suit }.

#[export] Instance Suit_eq_dec : EqDecision Suit.
Proof. solve_decision. Defined.
#[export] Instance Rank_eq_dec : EqDecision Rank.
Proof. solve_decision. Defined.
#[export] Instance Card_eq_dec : EqDecision Card.
Proof. solve_decision. Defined.

(** [Suit.value] *)
Definition suit_value (s : Suit) : string :=
  match s with
  | HEARTS => "♥" | DIAMONDS => "♦" | CLUBS => "♣" | SPADES => "♠"
  end.

(** [Card.__repr__]: the rank's letter (or number) followed by the suit. *)
Definition rank_str (r : Rank) : string :=
  match r with
  | ACE => "A" | KING => "K" | QUEEN => "Q" | JACK => "J" | TEN => "10"
  | NINE => "9" | EIGHT => "8" | SEVEN => "7" | SIX => "6" | FIVE => "5"
  | FOUR => "4" | THREE => "3" | TWO => "2"
  end.

Definition card_repr (c : Card) : string := rank_str (rank c) +:+ suit_value (suit c).

(** [Card.__eq__], [Card.__lt__] and [Card.__le__] between two cards. *)
Definition card_eq (a b : Card) : bool :=
  bool_decide (rank a = rank b) && bool_decide (suit a = suit b).
Definition card_lt (a b : Card) : bool :=
  Z.ltb (rank_value (rank a)) (rank_value (rank b)).
Definition card_le (a b : Card) : bool :=
  Z.leb (rank_value (rank a)) (rank_value (rank b)).

Definition all_suits : list Suit := [HEARTS; DIAMONDS; CLUBS; SPADES].
Definition all_ranks : list Rank :=
  [TWO; THREE; FOUR; FIVE; SIX; SEVEN; EIGHT; NINE; TEN; JACK; QUEEN; KING; ACE].

(** [Deck.reset]: [[Card(rank, suit) for suit in Suit for rank in Rank]] *)
Definition reset : list Card :=
  s ← all_suits; r ← all_ranks; [mkCard r s].

(** [Deck.deal(n)]: the dealt cards and the remaining deck, or
    [ValueError] when fewer than [n] cards remain. *)
Definition deal (n : nat) (cards : list Card) : option (list Card * list Card) :=
  if decide (length cards < n)%nat then None
  else Some (take n cards, drop n cards).

End Cards.

(** ** poker/hand_evaluator.py *)
Module HandEvaluator.
Import Cards.
Local Open Scope Z_scope.

Inductive HandRank :=
  HIGH_CARD | PAIR | TWO_PAIR | THREE_OF_A_KIND | STRAIGHT | FLUSH
| FULL_HOUSE | FOUR_OF_A_KIND | STRAIGHT_FLUSH | ROYAL_FLUSH.

Definition value (h : HandRank) : Z :=
  match h with
  | HIGH_CARD => 1 | PAIR => 2 | TWO_PAIR => 3 | THREE_OF_A_KIND => 4
  | STRAIGHT => 5 | FLUSH => 6 | FULL_HOUSE => 7 | FOUR_OF_A_KIND => 8
  | STRAIGHT_FLUSH => 9 | ROYAL_FLUSH => 10
  end.

#[export] Instance HandRank_eq_dec : EqDecision HandRank.
Proof. solve_decision. Defined.

Definition Evaluation : Type := HandRank * list Z.

(** The straight test on [sorted(set(ranks))]: the flag and the possibly
    rewritten [sorted_ranks] (ace low for the wheel).  The two index
    reads sit under the [len(sorted_ranks) == 5] guard. *)
Definition straight_check (sorted_ranks : list Z) : option (bool * list Z) :=
  if decide (length sorted_ranks = 5%nat) then
    hi ← last sorted_ranks;
    lo ← head sorted_ranks;
    if decide (hi - lo = 4) then Some (true, sorted_ranks)
    else if decide (sorted_ranks = [2; 3; 4; 5; 14]) then Some (true, [1; 2; 3; 4; 5])
    else Some (false, sorted_ranks)
  else Some (false, sorted_ranks).

Definition _evaluate_five_cards (cards : list Card) : option Evaluation :=
  let ranks := (λ c, rank_value (rank c)) <$> cards in
  let suits := suit <$> cards in
  let rank_counts := Py.Counter ranks in
  let suit_counts := Py.Counter suits in
  let is_flush := bool_decide (length suit_counts = 1%nat) in
  '(is_straight, sorted_ranks) ← straight_check (Py.sorted (Py.set ranks));
  (* the [and] chain reads the two ends only after both flags hold *)
  royal ← (if is_flush && is_straight then
             hi ← last sorted_ranks;
             lo ← head sorted_ranks;
             Some (bool_decide (hi = 14) && bool_decide (lo = 10))
           else Some false);
  if royal : bool then Some (ROYAL_FLUSH, [14])
  else if is_flush && is_straight then
    hi ← last sorted_ranks; Some (STRAIGHT_FLUSH, [hi])
  else if Py.in_values 4 rank_counts then
    four_kind ← head (Py.keys_with 4 rank_counts);
    kicker ← head (Py.keys_with 1 rank_counts);
    Some (FOUR_OF_A_KIND, [four_kind; kicker])
  else if Py.in_values 3 rank_counts && Py.in_values 2 rank_counts then
    three_kind ← head (Py.keys_with 3 rank_counts);
    pair ← head (Py.keys_with 2 rank_counts);
    Some (FULL_HOUSE, [three_kind; pair])
  else if is_flush then Some (FLUSH, Py.sorted_reverse ranks)
  else if is_straight then
    hi ← last sorted_ranks; Some (STRAIGHT, [hi])
  else if Py.in_values 3 rank_counts then
    three_kind ← head (Py.keys_with 3 rank_counts);
    Some (THREE_OF_A_KIND,
          three_kind :: Py.sorted_reverse (Py.keys_with 1 rank_counts))
  else
    let pairs := Py.keys_with 2 rank_counts in
    if decide (length pairs = 2%nat) then
      kicker ← head (Py.keys_with 1 rank_counts);
      Some (TWO_PAIR, Py.sorted_reverse pairs ++ [kicker])
    else if decide (length pairs = 1%nat) then
      pair ← head pairs;
      Some (PAIR, pair :: Py.sorted_reverse (Py.keys_with 1 rank_counts))
    else Some (HIGH_CARD, Py.sorted_reverse ranks).

(** The loop over [zip(tiebreakers1, tiebreakers2)]. *)
Fixpoint compare_tiebreakers (ts : list (Z * Z)) : Z :=
  match ts with
  | [] => 0
  | (t1, t2) :: rest =>
      if Z.ltb t2 t1 then 1
      else if Z.ltb t1 t2 then -1
      else compare_tiebreakers rest
  end.

Definition _compare_hands (hand1 hand2 : Evaluation) : Z :=
  let '(rank1, tiebreakers1) := hand1 in
  let '(rank2, tiebreakers2) := hand2 in
  if Z.ltb (value rank2) (value rank1) then 1
  else if Z.ltb (value rank1) (value rank2) then -1
  else compare_tiebreakers (Py.zip tiebreakers1 tiebreakers2).

(** The loop of [evaluate_hand] over the 5-card combinations; [best] is
    [None] while [best_hand is None]. *)
Fixpoint best_of (combos : list (list Card)) (best : option Evaluation)
  : option (option Evaluation) :=
  match combos with
  | [] => Some best
  | combo :: rest =>
      e ← _evaluate_five_cards combo;
      match best with
      | None => best_of rest (Some e)
      | Some b =>
          if Z.ltb 0 (_compare_hands e b) then best_of rest (Some e)
          else best_of rest best
      end
  end.

Definition evaluate_hand (cards : list Card) : option Evaluation :=
  if decide (length cards < 5)%nat then None
  else best ← best_of (Py.combinations cards 5) None; best.

(** The sort key [(x[1].value, x[2])] and tuple comparison [k1 <= k2]. *)
Definition key_le (k1 k2 : Z * list Z) : bool :=
  if Z.ltb k1.1 k2.1 then true
  else if Z.ltb k2.1 k1.1 then false
  else Py.list_le k1.2 k2.2.

Definition eval_key (x : nat * HandRank * list Z) : Z * list Z :=
  (value x.1.2, x.2).

(** The first loop of [compare_player_hands]: [enumerate(players_cards)]. *)
Fixpoint evaluate_all (i : nat) (players_cards : list (list Card))
    (community_cards : list Card) : option (list (nat * HandRank * list Z)) :=
  match players_cards with
  | [] => Some []
  | player_cards :: rest =>
      '(rank, tiebreakers) ← evaluate_hand (player_cards ++ community_cards);
      evs ← evaluate_all (S i) rest community_cards;
      Some ((i, rank, tiebreakers) :: evs)
  end.

(** The inner [while j < len(evaluations)] loop: the run of entries equal
    to the current one, and what follows it. *)
Fixpoint tied_run (current_rank : HandRank) (current_tiebreakers : list Z)
    (evs : list (nat * HandRank * list Z))
  : list nat * list (nat * HandRank * list Z) :=
  match evs with
  | [] => ([], [])
  | e :: rest =>
      if bool_decide (e.1.2 = current_rank) && bool_decide (e.2 = current_tiebreakers)
      then let '(tied, others) := tied_run current_rank current_tiebreakers rest in
           (e.1.1 :: tied, others)
      else ([], evs)
  end.

(** The outer [while i < len(evaluations)] loop; every iteration consumes
    at least one entry, so [length evs] iterations are enough. *)
Fixpoint group_ties (fuel : nat) (evs : list (nat * HandRank * list Z)) : list nat :=
  match fuel, evs with
  | _, [] => []
  | O, _ => []
  | S fuel', e :: rest =>
      let '(tied, others) := tied_run e.1.2 e.2 rest in
      (e.1.1 :: tied) ++ group_ties fuel' others
  end.

Definition compare_player_hands (players_cards : list (list Card))
    (community_cards : list Card) : option (list nat) :=
  evaluations ← evaluate_all 0 players_cards community_cards;
  let evaluations := Py.sort_by (λ x y, key_le (eval_key y) (eval_key x)) evaluations in
  Some (group_ties (length evaluations) evaluations).

End HandEvaluator.


(** ** poker/player.py *)
Module Player.
Import Cards.
Local Open Scope Z_scope.

(** [PlayerAction]: string constants. *)
Definition FOLD : string := "fold".
Definition CHECK : string := "check".
Definition CALL : string := "call".
Definition BET : string := "bet".
Definition RAISE : string := "raise".
Definition ALL_IN : string := "all_in".

Record Player := mkPlayer {
  player_id : string;
  name : string;
  chips : Z;
  hand : list Card;
  current_bet : Z;
  total_bet_this_round : Z;
  is_active : bool;
  is_all_in : bool;
  is_sitting_out : bool
}.

(** [Player(player_id, name, chips)] *)
Definition init (player_id name : string) (chips : Z) : Player :=
  mkPlayer player_id name chips [] 0 0 true false false.

Definition set_chips (v : Z) (p : Player) : Player :=
  mkPlayer (player_id p) (name p) v (hand p) (current_bet p)
    (total_bet_this_round p) (is_active p) (is_all_in p) (is_sitting_out p).
Definition set_hand (v : list Card) (p : Player) : Player :=
  mkPlayer (player_id p) (name p) (chips p) v (current_bet p)
    (total_bet_this_round p) (is_active p) (is_all_in p) (is_sitting_out p).
Definition set_current_bet (v : Z) (p : Player) : Player :=
  mkPlayer (player_id p) (name p) (chips p) (hand p) v
    (total_bet_this_round p) (is_active p) (is_all_in p) (is_sitting_out p).
Definition set_total_bet_this_round (v : Z) (p : Player) : Player :=
  mkPlayer (player_id p) (name p) (chips p) (hand p) (current_bet p)
    v (is_active p) (is_all_in p) (is_sitting_out p).
Definition set_is_active (v : bool) (p : Player) : Player :=
  mkPlayer (player_id p) (name p) (chips p) (hand p) (current_bet p)
    (total_bet_this_round p) v (is_all_in p) (is_sitting_out p).
Definition set_is_all_in (v : bool) (p : Player) : Player :=
  mkPlayer (player_id p) (name p) (chips p) (hand p) (current_bet p)
    (total_bet_this_round p) (is_active p) v (is_sitting_out p).

Definition add_chips (amount : Z) (p : Player) : Player :=
  set_chips (chips p + amount) p.

(** Returns the amount actually removed and the updated player. *)
Definition remove_chips (amount : Z) (p : Player) : Z * Player :=
  let actual_amount := Z.min amount (chips p) in
  let p := set_chips (chips p - actual_amount) p in
  let p := if decide (chips p = 0) then set_is_all_in true p else p in
  (actual_amount, p).

(** Returns the amount actually bet and the updated player. *)
Definition bet (amount : Z) (p : Player) : Z * Player :=
  let '(amount, p) :=
    if decide (amount >= chips p) then (chips p, set_is_all_in true p)
    else (amount, p) in
  let '(bet_amount, p) := remove_chips amount p in
  let p := set_current_bet (current_bet p + bet_amount) p in
  let p := set_total_bet_this_round (total_bet_this_round p + bet_amount) p in
  (bet_amount, p).

Definition fold (p : Player) : Player := set_is_active false p.

Definition reset_for_new_hand (p : Player) : Player :=
  set_is_all_in false
    (set_is_active true
       (set_total_bet_this_round 0 (set_current_bet 0 (set_hand [] p)))).

Definition reset_for_new_round (p : Player) : Player :=
  set_total_bet_this_round 0 (set_current_bet 0 p).

Definition can_act (p : Player) : bool :=
  is_active p && negb (is_all_in p) && bool_decide (chips p > 0).

#[export] Instance Player_eq_dec : EqDecision Player.
Proof. solve_decision. Defined.

End Player.

(** ** poker/game.py *)
Module Game.
Import Cards.
Local Open Scope Z_scope.

Inductive BettingRound := PRE_FLOP | FLOP | TURN | RIVER | SHOWDOWN.
Inductive GameState := WAITING_FOR_PLAYERS | IN_PROGRESS | FINISHED.

#[export] Instance BettingRound_eq_dec : EqDecision BettingRound.
Proof. solve_decision. Defined.
#[export] Instance GameState_eq_dec : EqDecision GameState.
Proof. solve_decision. Defined.

(** [BettingRound.value] *)
Definition round_value (r : BettingRound) : string :=
  match r with
  | PRE_FLOP => "pre_flop" | FLOP => "flop" | TURN => "turn"
  | RIVER => "river" | SHOWDOWN => "showdown"
  end.

(** What a method hands back: [start_hand] returns a bare [bool],
    [process_action] a [(success, message)] tuple. *)
Inductive Returned :=
| Flag (success : bool)
| Reply (success : bool) (message : string).

Definition succeeded (r : Returned) : bool :=
  match r with Flag b => b | Reply b _ => b end.
Definition message_of (r : Returned) : option string :=
  match r with Flag _ => None | Reply _ m => Some m end.

(** The table.  A player reference is a seat (position in [players]);
    [hand_history] is never written after construction and is left out. *)
Record TexasHoldemGame := mkGame {
  game_id : string;
  small_blind : Z;
  big_blind : Z;
  players : list Player.Player;
  deck : list Card;
  community_cards : list Card;
  pot : Z;
  side_pots : list (Z * list nat);
  current_bet : Z;
  betting_round : BettingRound;
  dealer_position : nat;
  small_blind_position : nat;
  big_blind_position : nat;
  current_player_index : nat;
  state : GameState;
  winners : list (nat * Z);
  acted_this_round : gset string
}.

(** [TexasHoldemGame(game_id, small_blind, big_blind)] *)
Definition init (game_id : string) (small_blind big_blind : Z) : TexasHoldemGame :=
  mkGame game_id small_blind big_blind [] reset [] 0 [] 0 PRE_FLOP
    0 0 0 0 WAITING_FOR_PLAYERS [] ∅.

Definition set_players v g :=
  mkGame (game_id g) (small_blind g) (big_blind g) v (deck g)
    (community_cards g) (pot g) (side_pots g) (current_bet g) (betting_round g)
    (dealer_position g) (small_blind_position g) (big_blind_position g)
    (current_player_index g) (state g) (winners g) (acted_this_round g).
Definition set_deck v g :=
  mkGame (game_id g) (small_blind g) (big_blind g) (players g) v
    (community_cards g) (pot g) (side_pots g) (current_bet g) (betting_round g)
    (dealer_position g) (small_blind_position g) (big_blind_position g)
    (current_player_index g) (state g) (winners g) (acted_this_round g).
Definition set_community_cards v g :=
  mkGame (game_id g) (small_blind g) (big_blind g) (players g) (deck g)
    v (pot g) (side_pots g) (current_bet g) (betting_round g)
    (dealer_position g) (small_blind_position g) (big_blind_position g)
    (current_player_index g) (state g) (winners g) (acted_this_round g).
Definition set_pot v g :=
  mkGame (game_id g) (small_blind g) (big_blind g) (players g) (deck g)
    (community_cards g) v (side_pots g) (current_bet g) (betting_round g)
    (dealer_position g) (small_blind_position g) (big_blind_position g)
    (current_player_index g) (state g) (winners g) (acted_this_round g).
Definition set_side_pots v g :=
  mkGame (game_id g) (small_blind g) (big_blind g) (players g) (deck g)
    (community_cards g) (pot g) v (current_bet g) (betting_round g)
    (dealer_position g) (small_blind_position g) (big_blind_position g)
    (current_player_index g) (state g) (winners g) (acted_this_round g).
Definition set_current_bet v g :=
  mkGame (game_id g) (small_blind g) (big_blind g) (players g) (deck g)
    (community_cards g) (pot g) (side_pots g) v (betting_round g)
    (dealer_position g) (small_blind_position g) (big_blind_position g)
    (current_player_index g) (state g) (winners g) (acted_this_round g).
Definition set_betting_round v g :=
  mkGame (game_id g) (small_blind g) (big_blind g) (players g) (deck g)
    (community_cards g) (pot g) (side_pots g) (current_bet g) v
    (dealer_position g) (small_blind_position g) (big_blind_position g)
    (current_player_index g) (state g) (winners g) (acted_this_round g).
Definition set_positions d sb bb g :=
  mkGame (game_id g) (small_blind g) (big_blind g) (players g) (deck g)
    (community_cards g) (pot g) (side_pots g) (current_bet g) (betting_round g)
    d sb bb
    (current_player_index g) (state g) (winners g) (acted_this_round g).
Definition set_current_player_index v g :=
  mkGame (game_id g) (small_blind g) (big_blind g) (players g) (deck g)
    (community_cards g) (pot g) (side_pots g) (current_bet g) (betting_round g)
    (dealer_position g) (small_blind_position g) (big_blind_position g)
    v (state g) (winners g) (acted_this_round g).
Definition set_state v g :=
  mkGame (game_id g) (small_blind g) (big_blind g) (players g) (deck g)
    (community_cards g) (pot g) (side_pots g) (current_bet g) (betting_round g)
    (dealer_position g) (small_blind_position g) (big_blind_position g)
    (current_player_index g) v (winners g) (acted_this_round g).
Definition set_winners v g :=
  mkGame (game_id g) (small_blind g) (big_blind g) (players g) (deck g)
    (community_cards g) (pot g) (side_pots g) (current_bet g) (betting_round g)
    (dealer_position g) (small_blind_position g) (big_blind_position g)
    (current_player_index g) (state g) v (acted_this_round g).
Definition set_acted_this_round v g :=
  mkGame (game_id g) (small_blind g) (big_blind g) (players g) (deck g)
    (community_cards g) (pot g) (side_pots g) (current_bet g) (betting_round g)
    (dealer_position g) (small_blind_position g) (big_blind_position g)
    (current_player_index g) (state g) (winners g) v.

(** [add_player]: at most 10 seats, no two players with the same id; the
    new player takes the last seat. *)
Definition add_player (player : Player.Player) (g : TexasHoldemGame)
  : bool * TexasHoldemGame :=
  if decide (10 <= length (players g))%nat then (false, g)
  else if existsb (λ p, bool_decide (Player.player_id p = Player.player_id player))
            (players g)
  then (false, g)
  else (true, set_players (players g ++ [player]) g).

(** [remove_player]: keeps the players with another id; always [True]. *)
Definition remove_player (player_id : string) (g : TexasHoldemGame)
  : bool * TexasHoldemGame :=
  (true,
   set_players (filter (λ p, Player.player_id p ≠ player_id) (players g)) g).

(** [enumerate(l)], counting from [i]. *)
Fixpoint enumerate_from {A} (i : nat) (l : list A) : list (nat * A) :=
  match l with
  | [] => []
  | x :: t => (i, x) :: enumerate_from (S i) t
  end.

(** The seat list with each seat's current contents. *)
Definition seated (g : TexasHoldemGame) : list (nat * Player.Player) :=
  enumerate_from 0 (players g).

(** Mutating the object a reference points to. *)
Definition update_player (seat : nat) (f : Player.Player → Player.Player)
    (g : TexasHoldemGame) : option TexasHoldemGame :=
  p ← players g !! seat;
  Some (set_players (<[seat := f p]> (players g)) g).

(** [player.bet(amount)] through a reference: the amount bet and the
    table with the updated player. *)
Definition bet_at (seat : nat) (amount : Z) (g : TexasHoldemGame)
  : option (Z * TexasHoldemGame) :=
  p ← players g !! seat;
  let '(bet_amount, p') := Player.bet amount p in
  Some (bet_amount, set_players (<[seat := p']> (players g)) g).

(** [self.deck.deal(n)] *)
Definition deck_deal (n : nat) (g : TexasHoldemGame)
  : option (list Card * TexasHoldemGame) :=
  '(dealt, rest) ← deal n (deck g);
  Some (dealt, set_deck rest g).

Definition get_active_players (g : TexasHoldemGame) : list (nat * Player.Player) :=
  filter (λ ip, Player.is_active ip.2 = true ∧ Player.is_sitting_out ip.2 = false)
    (seated g).

Definition get_eligible_players (g : TexasHoldemGame) : list (nat * Player.Player) :=
  filter (λ ip, Player.can_act ip.2 = true) (get_active_players g).

Definition get_current_player (g : TexasHoldemGame) : option nat :=
  let eligible := get_eligible_players g in
  match eligible with
  | [] => None
  | _ => fst <$> eligible !! (current_player_index g mod length eligible)%nat
  end.

Definition _all_players_have_acted (g : TexasHoldemGame) : bool :=
  let eligible := get_eligible_players g in
  if decide (length eligible = 0%nat) then true
  else
    let eligible_ids : gset string :=
      list_to_set (Player.player_id <$> eligible.*2) in
    bool_decide (eligible_ids ⊆ acted_this_round g).

(** [active.index(dealer_player)]: [None] is the caught [ValueError]. *)
Fixpoint index_of (x : nat) (l : list nat) : option nat :=
  match l with
  | [] => None
  | y :: t => if decide (y = x) then Some O else S <$> index_of x t
  end.

Definition _reset_betting_round (g : TexasHoldemGame) : option TexasHoldemGame :=
  let g := set_current_bet 0 g in
  let g := set_acted_this_round ∅ g in
  let g := set_players (Player.reset_for_new_round <$> players g) g in
  let active := get_active_players g in
  match active with
  | [] => Some g
  | _ =>
      (* [self.players[self.dealer_position]] *)
      _ ← players g !! dealer_position g;
      match index_of (dealer_position g) active.*1 with
      | Some dealer_idx =>
          Some (set_current_player_index ((dealer_idx + 1) mod length active)%nat g)
      | None => Some (set_current_player_index 0%nat g)
      end
  end.

Definition _deal_flop (g : TexasHoldemGame) : option TexasHoldemGame :=
  let g := set_betting_round FLOP g in
  '(_, g) ← deck_deal 1 g;
  '(dealt, g) ← deck_deal 3 g;
  _reset_betting_round (set_community_cards dealt g).

Definition _deal_turn (g : TexasHoldemGame) : option TexasHoldemGame :=
  let g := set_betting_round TURN g in
  '(_, g) ← deck_deal 1 g;
  '(dealt, g) ← deck_deal 1 g;
  card ← head dealt;
  _reset_betting_round (set_community_cards (community_cards g ++ [card]) g).

Definition _deal_river (g : TexasHoldemGame) : option TexasHoldemGame :=
  let g := set_betting_round RIVER g in
  '(_, g) ← deck_deal 1 g;
  '(dealt, g) ← deck_deal 1 g;
  card ← head dealt;
  _reset_betting_round (set_community_cards (community_cards g ++ [card]) g).

(** The loop of [_calculate_side_pots] from position [i] on; [rest] is
    [bet_amounts[i:]].  Returning early is the [break]. *)
Fixpoint side_pot_loop (active_players : list (nat * Player.Player))
    (bet_amounts : list Z) (i : nat) (rest : list Z)
    (side_pots : list (Z * list nat)) (remaining_pot : Z)
  : option (list (Z * list nat)) :=
  match rest with
  | [] => Some side_pots
  | bet_amount :: rest' =>
      if decide (remaining_pot <= 0) then Some side_pots
      else
        let eligible :=
          filter (λ ip, Player.total_bet_this_round ip.2 >= bet_amount)
            active_players in
        pot_contribution ←
          (if decide (i = 0%nat) then Some (bet_amount * Z.of_nat (length eligible))
           else prev_bet ← bet_amounts !! (i - 1)%nat;
                Some ((bet_amount - prev_bet) * Z.of_nat (length eligible)));
        if decide (pot_contribution > 0) then
          side_pot_loop active_players bet_amounts (S i) rest'
            (side_pots ++ [(pot_contribution, eligible.*1)])
            (remaining_pot - pot_contribution)
        else
          side_pot_loop active_players bet_amounts (S i) rest'
            side_pots remaining_pot
  end.

Definition _calculate_side_pots (g : TexasHoldemGame) : option TexasHoldemGame :=
  let active_players := get_active_players g in
  match active_players with
  | [] => Some g
  | _ =>
      let bet_amounts :=
        Py.sorted_reverse
          (Py.set (Player.total_bet_this_round <$> active_players.*2)) in
      side_pots ← side_pot_loop active_players bet_amounts 0 bet_amounts [] (pot g);
      Some (set_side_pots side_pots g)
  end.

(** [[ranked_players[i] for i in eligible_indices
      if ranked_players[i] in eligible_indices]] *)
Fixpoint layer_winners (ranked_players eligible_indices todo : list nat)
  : option (list nat) :=
  match todo with
  | [] => Some []
  | i :: todo' =>
      r ← ranked_players !! i;
      ws ← layer_winners ranked_players eligible_indices todo';
      Some (if bool_decide (r ∈ eligible_indices) then r :: ws else ws)
  end.

(** One iteration of the side-pot distribution loop of [_showdown]. *)
Definition distribute_layer (active_players : list (nat * Player.Player))
    (ranked_players : list nat) (g : TexasHoldemGame) (layer : Z * list nat)
  : option TexasHoldemGame :=
  let '(pot_amount, eligible_players) := layer in
  let eligible_indices :=
    (filter (λ ip, ip.2 ∈ eligible_players)
       (enumerate_from 0 active_players.*1)).*1 in
  winners_here ← layer_winners ranked_players eligible_indices eligible_indices;
  match winners_here with
  | [] => Some g
  | winner_idx :: _ =>
      let per_player :=
        pot_amount `div`
          Z.of_nat (length (filter (λ w, w = winner_idx) winners_here)) in
      seat ← active_players.*1 !! winner_idx;
      g ← update_player seat (Player.add_chips per_player) g;
      Some (set_winners (winners g ++ [(seat, per_player)]) g)
  end.

Fixpoint distribute_side_pots (active_players : list (nat * Player.Player))
    (ranked_players : list nat) (layers : list (Z * list nat))
    (g : TexasHoldemGame) : option TexasHoldemGame :=
  match layers with
  | [] => Some g
  | layer :: layers' =>
      g ← distribute_layer active_players ranked_players g layer;
      distribute_side_pots active_players ranked_players layers' g
  end.

Definition _showdown (g : TexasHoldemGame) : option TexasHoldemGame :=
  let g := set_betting_round SHOWDOWN g in
  let active_players := get_active_players g in
  if decide (length active_players = 0%nat) then Some g
  else
    g ← _calculate_side_pots g;
    let player_hands := Player.hand <$> active_players.*2 in
    ranked_players ←
      HandEvaluator.compare_player_hands player_hands (community_cards g);
    let g := set_winners [] g in
    g ← match side_pots g with
        | _ :: _ =>
            distribute_side_pots active_players ranked_players (side_pots g) g
        | [] =>
            winner_idx ← head ranked_players;
            seat ← active_players.*1 !! winner_idx;
            g ← update_player seat (Player.add_chips (pot g)) g;
            Some (set_winners [(seat, pot g)] g)
        end;
    Some (set_state FINISHED g).

Definition _check_betting_round_complete (g : TexasHoldemGame)
  : option TexasHoldemGame :=
  let active_players := get_active_players g in
  match active_players with
  | [(winner, _)] =>
      g ← update_player winner (Player.add_chips (pot g)) g;
      Some (set_state FINISHED (set_winners [(winner, pot g)] g))
  | _ =>
      match betting_round g with
      | PRE_FLOP => _deal_flop g
      | FLOP => _deal_turn g
      | TURN => _deal_river g
      | RIVER => _showdown g
      | SHOWDOWN => Some g
      end
  end.

Definition all_bets_equal (g : TexasHoldemGame) : bool :=
  forallb
    (λ ip : nat * Player.Player,
       bool_decide (Player.current_bet ip.2 = current_bet g)
       || Player.is_all_in ip.2 || negb (Player.is_active ip.2))
    (get_active_players g).

Definition _advance_to_next_player (g : TexasHoldemGame) : option TexasHoldemGame :=
  let eligible := get_eligible_players g in
  match eligible with
  | [] => _check_betting_round_complete g
  | _ =>
      let g :=
        set_current_player_index
          ((current_player_index g + 1) mod length eligible)%nat g in
      match get_current_player g with
      | None => _check_betting_round_complete g
      | Some _ =>
          if all_bets_equal g && _all_players_have_acted g
          then _check_betting_round_complete g
          else Some g
      end
  end.

(** [acted_this_round.add(id)] *)
Definition mark_acted (id : string) (g : TexasHoldemGame) : TexasHoldemGame :=
  set_acted_this_round ({[id]} ∪ acted_this_round g) g.

(** [player] is the seat of the acting player; a player who is not at
    the table is any seat past the end of [players]. *)
Definition process_action (g : TexasHoldemGame) (player : nat)
    (action : string) (amount : Z) : option (Returned * TexasHoldemGame) :=
  if decide (state g ≠ IN_PROGRESS) then
    Some (Reply false "Game is not in progress", g)
  else if decide (player ∉ (get_eligible_players g).*1) then
    Some (Reply false "Player cannot act", g)
  else if decide (get_current_player g ≠ Some player) then
    Some (Reply false "Not player's turn", g)
  else
    p ← players g !! player;
    let amount_to_call := current_bet g - Player.current_bet p in
    let min_raise := big_blind g in
    if decide (action = Player.FOLD) then
      g ← update_player player Player.fold g;
      let g := mark_acted (Player.player_id p) g in
      g ← _advance_to_next_player g;
      Some (Reply true (Player.name p +:+ " folds"), g)
    else if decide (action = Player.CHECK) then
      if decide (amount_to_call > 0) then
        Some (Reply false "Cannot check, must call or fold", g)
      else
        let g := mark_acted (Player.player_id p) g in
        g ← _advance_to_next_player g;
        Some (Reply true (Player.name p +:+ " checks"), g)
    else if decide (action = Player.CALL) then
      if decide (amount_to_call = 0) then
        Some (Reply false "Nothing to call, check instead", g)
      else
        let call_amount := Z.min amount_to_call (Player.chips p) in
        '(bet_amount, g) ← bet_at player call_amount g;
        let g := set_pot (pot g + bet_amount) g in
        let g := mark_acted (Player.player_id p) g in
        g ← _advance_to_next_player g;
        Some (Reply true (Player.name p +:+ " calls " +:+ pretty bet_amount), g)
    else if decide (action = Player.BET) then
      if decide (current_bet g > 0) then
        Some (Reply false "Cannot bet, must call or raise", g)
      else if decide (amount < min_raise) then
        Some (Reply false ("Bet must be at least " +:+ pretty min_raise), g)
      else if decide (amount > Player.chips p) then
        Some (Reply false "Insufficient chips", g)
      else
        '(bet_amount, g) ← bet_at player amount g;
        p' ← players g !! player;
        let g := set_current_bet (Player.current_bet p') g in
        let g := set_pot (pot g + bet_amount) g in
        let g := mark_acted (Player.player_id p) (set_acted_this_round ∅ g) in
        g ← _advance_to_next_player g;
        Some (Reply true (Player.name p +:+ " bets " +:+ pretty bet_amount), g)
    else if decide (action = Player.RAISE) then
      if decide (amount_to_call = 0) then
        Some (Reply false "Nothing to raise, bet instead", g)
      else
        let total_raise_amount := amount_to_call + amount in
        if decide (amount < min_raise) then
          Some (Reply false ("Raise must be at least " +:+ pretty min_raise
                             +:+ " more than current bet"), g)
        else if decide (total_raise_amount > Player.chips p) then
          Some (Reply false "Insufficient chips", g)
        else
          '(bet_amount, g) ← bet_at player total_raise_amount g;
          p' ← players g !! player;
          let g := set_current_bet (Player.current_bet p') g in
          let g := set_pot (pot g + bet_amount) g in
          let g := mark_acted (Player.player_id p) (set_acted_this_round ∅ g) in
          g ← _advance_to_next_player g;
          Some (Reply true (Player.name p +:+ " raises to "
                            +:+ pretty (current_bet g)), g)
    else if decide (action = Player.ALL_IN) then
      '(all_in_amount, g) ← bet_at player (Player.chips p) g;
      p' ← players g !! player;
      let g :=
        if decide (all_in_amount > current_bet g)
        then set_acted_this_round ∅ (set_current_bet (Player.current_bet p') g)
        else g in
      let g := set_pot (pot g + all_in_amount) g in
      let g := mark_acted (Player.player_id p) g in
      g ← _advance_to_next_player g;
      Some (Reply true (Player.name p +:+ " goes all-in with "
                        +:+ pretty all_in_amount), g)
    else Some (Reply false ("Unknown action: " +:+ action), g).

(** The hole-card loop of [start_hand]. *)
Fixpoint deal_hole_cards (seats : list nat) (g : TexasHoldemGame)
  : option TexasHoldemGame :=
  match seats with
  | [] => Some g
  | seat :: seats' =>
      '(dealt, g) ← deck_deal 2 g;
      g ← update_player seat (Player.set_hand dealt) g;
      deal_hole_cards seats' g
  end.

(** [shuffle] stands for [random.shuffle]. *)
Definition start_hand (shuffle : list Card → list Card) (g : TexasHoldemGame)
  : option (Returned * TexasHoldemGame) :=
  let active_players :=
    (filter (λ ip, Player.is_sitting_out ip.2 = false ∧ Player.chips ip.2 > 0)
       (seated g)).*1 in
  if decide (length active_players < 2)%nat then Some (Flag false, g)
  else
    let g := set_deck (shuffle reset) g in
    let g := set_community_cards [] g in
    let g := set_pot 0 g in
    let g := set_side_pots [] g in
    let g := set_current_bet 0 g in
    let g := set_betting_round PRE_FLOP g in
    let g := set_winners [] g in
    let g := set_players (Player.reset_for_new_hand <$> players g) g in
    let n := length active_players in
    let dealer := ((dealer_position g + 1) mod n)%nat in
    let sb := ((dealer + 1) mod n)%nat in
    let bb := ((dealer + 2) mod n)%nat in
    let g := set_positions dealer sb bb g in
    sb_player ← active_players !! sb;
    bb_player ← active_players !! bb;
    sb_p ← players g !! sb_player;
    bb_p ← players g !! bb_player;
    let sb_amount := Z.min (small_blind g) (Player.chips sb_p) in
    let bb_amount := Z.min (big_blind g) (Player.chips bb_p) in
    '(sb_bet, g) ← bet_at sb_player sb_amount g;
    let g := set_pot (pot g + sb_bet) g in
    '(bb_bet, g) ← bet_at bb_player bb_amount g;
    let g := set_pot (pot g + bb_bet) g in
    sb_p ← players g !! sb_player;
    bb_p ← players g !! bb_player;
    let g :=
      set_current_bet (Z.max (Player.current_bet sb_p) (Player.current_bet bb_p)) g in
    g ← deal_hole_cards active_players g;
    let g :=
      mark_acted (Player.player_id bb_p)
        (mark_acted (Player.player_id sb_p) (set_acted_this_round ∅ g)) in
    let g := set_current_player_index ((bb + 1) mod n)%nat g in
    Some (Flag true, set_state IN_PROGRESS g).

(** One entry of the snapshot's ["players"] list. *)
Record PlayerView := mkView {
  view_name : string;
  view_chips : Z;
  view_current_bet : Z;
  view_is_active : bool;
  view_is_all_in : bool
}.

(** The dictionary built by [get_game_state_for_player], key by key. *)
Record Snapshot := mkSnapshot {
  snap_game_id : string;
  snap_betting_round : string;
  snap_pot : Z;
  snap_current_bet : Z;
  snap_current_bet_to_call : Z;
  snap_min_raise : Z;
  snap_community_cards : list Card;
  snap_hand : list Card;
  snap_chips : Z;
  snap_player_current_bet : Z;
  snap_players : list PlayerView;
  snap_is_your_turn : bool
}.

Definition get_game_state_for_player (g : TexasHoldemGame) (player : nat)
  : option Snapshot :=
  p ← players g !! player;
  Some (mkSnapshot (game_id g) (round_value (betting_round g)) (pot g)
          (current_bet g) (current_bet g - Player.current_bet p) (big_blind g)
          (community_cards g) (Player.hand p) (Player.chips p)
          (Player.current_bet p)
          ((λ q, mkView (Player.name q) (Player.chips q) (Player.current_bet q)
                   (Player.is_active q) (Player.is_all_in q)) <$> players g)
          (bool_decide (get_current_player g = Some player))).

(** Chips held by the players. *)
Definition total_stacks (g : TexasHoldemGame) : Z :=
  foldr (λ p acc, Player.chips p + acc) 0 (players g).

End Game.

(** ** Concrete tables and hands *)
Module Scenarios.
Import Cards Game.
Local Open Scope Z_scope.

(** A table with blinds 5/10 and the given [(id, name, chips)] seats. *)
Definition table (seats : list (string * string * Z)) : TexasHoldemGame :=
  set_players
    ((λ x : string * string * Z, Player.init x.1.1 x.1.2 x.2) <$> seats)
    (init "game1" 5 10).

(** Feeding one [(seat, action, amount)] to the table reached so far. *)
Definition act (r : option (Returned * TexasHoldemGame))
    (a : nat * string * Z) : option (Returned * TexasHoldemGame) :=
  '(_, g) ← r; process_action g a.1.1 a.1.2 a.2.

(** [start_hand] on the unshuffled deck, then the actions in order. *)
Definition play (g : TexasHoldemGame) (actions : list (nat * string * Z))
  : option (Returned * TexasHoldemGame) :=
  foldl act (start_hand id g) actions.

Definition heads_up : TexasHoldemGame :=
  table [("p0", "Alice", 1000); ("p1", "Bob", 1000)].

Definition three_handed : TexasHoldemGame :=
  table [("p0", "Alice", 1000); ("p1", "Bob", 1000); ("p2", "Carol", 1000)].

(** Carol is short: 22 chips, 17 behind after the small blind. *)
Definition short_small_blind : TexasHoldemGame :=
  table [("p0", "Alice", 1000); ("p1", "Bob", 1000); ("p2", "Carol", 22)].

(** Stacks that are 200, 100 and 50 deep once the pre-flop round is paid. *)
Definition uneven_stacks : TexasHoldemGame :=
  table [("p0", "Alice", 210); ("p1", "Bob", 110); ("p2", "Carol", 60)].

(** Limp, then check every street down to the river (heads-up). *)
Definition heads_up_to_river : list (nat * string * Z) :=
  [(0%nat, Player.CALL, 0);
   (0%nat, Player.CHECK, 0); (1%nat, Player.CHECK, 0);
   (0%nat, Player.CHECK, 0); (1%nat, Player.CHECK, 0)].

(** Limp, then check every street down to the river (three-handed). *)
Definition three_to_river : list (nat * string * Z) :=
  [(1%nat, Player.CALL, 0); (2%nat, Player.CALL, 0);
   (2%nat, Player.CHECK, 0); (0%nat, Player.CHECK, 0); (1%nat, Player.CHECK, 0);
   (2%nat, Player.CHECK, 0); (0%nat, Player.CHECK, 0); (1%nat, Player.CHECK, 0)].

(** A seat that is all-in for [committed] chips. *)
Definition all_in_seat (id name : string) (committed : Z) : Player.Player :=
  Player.mkPlayer id name 0 [] committed committed true true false.

(** Three all-in players who committed 200, 100 and 50; the pot holds
    exactly those 350 chips. *)
Definition three_all_in : TexasHoldemGame :=
  set_state IN_PROGRESS
    (set_betting_round RIVER
       (set_pot 350
          (set_players
             [all_in_seat "p0" "Alice" 200; all_in_seat "p1" "Bob" 100;
              all_in_seat "p2" "Carol" 50]
             (init "game1" 5 10)))).

(** The river of [uneven_stacks]: each player moves all-in in turn. *)
Definition river_all_ins : list (nat * string * Z) :=
  three_to_river
    ++ [(2%nat, Player.ALL_IN, 0); (1%nat, Player.ALL_IN, 0);
        (0%nat, Player.ALL_IN, 0)].

(** The river heads-up: a bet of 100 and a call. *)
Definition river_bet_called : list (nat * string * Z) :=
  heads_up_to_river ++ [(0%nat, Player.BET, 100); (1%nat, Player.CALL, 0)].

(** The river heads-up: checked through. *)
Definition river_checked : list (nat * string * Z) :=
  heads_up_to_river ++ [(0%nat, Player.CHECK, 0); (1%nat, Player.CHECK, 0)].

(** Two tables that differ in Bob's hole cards only. *)
Definition dealt (bobs_hand : list Card) : TexasHoldemGame :=
  set_players
    [Player.set_hand [mkCard ACE SPADES; mkCard KING SPADES]
       (Player.init "p0" "Alice" 1000);
     Player.set_hand bobs_hand (Player.init "p1" "Bob" 1000)]
    (init "game1" 5 10).

(** A wheel in mixed suits. *)
Definition wheel : list Card :=
  [mkCard ACE SPADES; mkCard FIVE HEARTS; mkCard FOUR HEARTS;
   mkCard THREE CLUBS; mkCard TWO DIAMONDS].

End Scenarios.

(** ** Predicates used by the statements *)
Module Props.
Import Cards HandEvaluator Game.
Local Open Scope Z_scope.

(** The ledger invariant of a player: the stack is not negative and an
    all-in player has no chips left. *)
Definition ledger_invariant (p : Player.Player) : Prop :=
  0 <= Player.chips p ∧ (Player.is_all_in p = true → Player.chips p = 0).

(** The committed-this-round counters of a player. *)
Definition committed (p : Player.Player) : Z * Z :=
  (Player.current_bet p, Player.total_bet_this_round p).

(** A call was turned down with a non-empty message and the table [g]
    it was made on is handed back as it was. *)
Definition rejected_with_message (r : option (Returned * TexasHoldemGame))
    (g : TexasHoldemGame) : Prop :=
  ∃ m, r = Some (Reply false m, g) ∧ m ≠ "".

(** Two evaluations of the same category carry tiebreaker lists of the
    same length. *)
Definition same_shape (x y : Evaluation) : Prop :=
  x.1 = y.1 → length x.2 = length y.2.

(** Number of tiebreakers the evaluator reports for a category. *)
Definition tiebreaker_count (h : HandRank) : nat :=
  match h with
  | HIGH_CARD | FLUSH => 5
  | PAIR => 4
  | TWO_PAIR | THREE_OF_A_KIND => 3
  | FULL_HOUSE | FOUR_OF_A_KIND => 2
  | STRAIGHT | STRAIGHT_FLUSH | ROYAL_FLUSH => 1
  end.

(** A player with the hole cards blanked out. *)
Definition without_hand (p : Player.Player) : Player.Player :=
  Player.set_hand [] p.

(** [g1] and [g2] differ at most in the hole cards of players other than
    the one at seat [player]. *)
Definition differ_in_other_hands (player : nat) (g1 g2 : TexasHoldemGame) : Prop :=
  set_players [] g1 = set_players [] g2
  ∧ without_hand <$> players g1 = without_hand <$> players g2
  ∧ players g1 !! player = players g2 !! player.

(** The spec's straight, in its own words: five distinct ranks spanning
    exactly 4, the ace of the wheel counting low (as 1). *)
Definition ace_low (r : Z) : Z := if decide (r = 14) then 1 else r.
Definition span (ranks : list Z) : Z :=
  foldr Z.max 0 ranks - foldr Z.min 15 ranks.
Definition spec_straight (ranks : list Z) : Prop :=
  NoDup ranks ∧ length ranks = 5%nat
  ∧ (span ranks = 4 ∨ span (ace_low <$> ranks) = 4).

(** Rank values and suits of a hand. *)
Definition ranks_of (cards : list Card) : list Z :=
  (λ c, rank_value (rank c)) <$> cards.
Definition mixed_suits (cards : list Card) : Prop :=
  ∃ c1 c2, c1 ∈ cards ∧ c2 ∈ cards ∧ suit c1 ≠ suit c2.

(** The flush flag of [_evaluate_five_cards]. *)
Definition is_flush_of (cards : list Card) : bool :=
  bool_decide (length (Py.Counter (suit <$> cards)) = 1%nat).

(** Total of the counts held by a counter. *)
Definition weight {A} (c : list (A * nat)) : nat :=
  foldr (λ kc acc, (kc.2 + acc)%nat) 0%nat c.

(** The seats [start_hand] counts: not sitting out, with chips. *)
Definition funded_seats (g : TexasHoldemGame) : list nat :=
  (filter (λ ip : nat * Player.Player,
             Player.is_sitting_out ip.2 = false ∧ Player.chips ip.2 > 0)
     (seated g)).*1.

(** The action preconditions of [process_action], negated. *)
Definition violates_precondition (g : TexasHoldemGame) (p : Player.Player)
    (action : string) (amount : Z) : Prop :=
  let amount_to_call := current_bet g - Player.current_bet p in
  (action = Player.CHECK ∧ amount_to_call > 0)
  ∨ (action = Player.CALL ∧ amount_to_call = 0)
  ∨ (action = Player.BET
     ∧ (current_bet g > 0 ∨ amount < big_blind g ∨ amount > Player.chips p))
  ∨ (action = Player.RAISE
     ∧ (amount_to_call = 0 ∨ amount < big_blind g
        ∨ amount_to_call + amount > Player.chips p))
  ∨ action ∉ [Player.FOLD; Player.CHECK; Player.CALL; Player.BET;
              Player.RAISE; Player.ALL_IN].

(** Chips held by a list of players. *)
Definition stack_sum (ps : list Player.Player) : Z :=
  foldr (λ p acc, Player.chips p + acc) 0 ps.

(** The table keeps its chips: same stacks in total, same pot. *)
Definition keeps_chips (g g' : TexasHoldemGame) : Prop :=
  total_stacks g' = total_stacks g ∧ pot g' = pot g.

(** The spec's side pots, in its own words: the distinct committed
    amounts of the active players in ascending order; each tier's layer is
    (tier - previous tier) times the number of players who committed at
    least the tier, attributed to exactly those players. *)
Fixpoint spec_layers (active_players : list (nat * Player.Player))
    (previous : Z) (tiers : list Z) : list (Z * list nat) :=
  match tiers with
  | [] => []
  | tier :: tiers' =>
      let contributors :=
        filter (λ ip, Player.total_bet_this_round ip.2 >= tier) active_players in
      ((tier - previous) * Z.of_nat (length contributors), contributors.*1)
        :: spec_layers active_players tier tiers'
  end.

Definition spec_side_pots (g : TexasHoldemGame) : list (Z * list nat) :=
  let active_players := get_active_players g in
  spec_layers active_players 0
    (Py.sorted (Py.set (Player.total_bet_this_round <$> active_players.*2))).

End Props.

(** * Properties *)

Import Cards HandEvaluator Game Props Scenarios.
Open Scope Z_scope.

Ltac split_pairs :=
  repeat match goal with x : (_ * _)%type |- _ => destruct x end.
Ltac run_binds := repeat (progress (simplify_option_eq; split_pairs)).

(** ** Python built-ins *)
Section Sorting.
Context {A : Type} (before : A → A → bool).

Lemma insert_by_permutation x l : Py.insert_by before x l ≡ₚ x :: l.
Proof.
  induction l as [|y l IH]; cbn; [done|].
  destruct (before x y); [done|]. rewrite IH. apply Permutation_swap.
Qed.

Lemma sort_by_permutation l : Py.sort_by before l ≡ₚ l.
Proof.
  induction l as [|x l IH]; cbn; [done|].
  by rewrite insert_by_permutation, IH.
Qed.

Lemma sort_by_length l : length (Py.sort_by before l) = length l.
Proof. by rewrite sort_by_permutation. Qed.
End Sorting.

Section Filter.
Context {A : Type} (P : A → Prop) `{∀ x, Decision (P x)}.

Lemma filter_none (l : list A) : (∀ x, x ∈ l → ¬ P x) → filter P l = [].
Proof.
  induction l as [|x l IH]; [done|]. intros Hl.
  rewrite filter_cons_False by (apply Hl; left).
  apply IH. intros y Hy. apply Hl. by right.
Qed.

Lemma filter_all (l : list A) : (∀ x, x ∈ l → P x) → filter P l = l.
Proof.
  induction l as [|x l IH]; [done|]. intros Hl.
  rewrite filter_cons_True by (apply Hl; left).
  f_equal. apply IH. intros y Hy. apply Hl. by right.
Qed.
End Filter.

Section Counting.
Context {A : Type} `{EqDecision A}.

Lemma filter_split_length (P : A → Prop) `{∀ x, Decision (P x)} (y : A) (l : list A) :
  length (filter P l)
  = (length (filter (λ k, P k ∧ k = y) l)
     + length (filter (λ k, P k ∧ k ≠ y) l))%nat.
Proof.
  induction l as [|x l IH]; [done|].
  rewrite !filter_cons.
  destruct (decide (P x)), (decide (x = y));
    repeat case_decide; cbn; try tauto; lia.
Qed.

Lemma weight_filter_Counter (l : list A) :
  ∀ (P : A → Prop) `{∀ x, Decision (P x)},
    weight (filter (λ kc, P kc.1) (Py.Counter l)) = length (filter P l).
Proof.
  induction l as [|y l IH]; intros P HP; [done|].
  cbn [Py.Counter]. rewrite !filter_cons. cbn [fst].
  rewrite list_filter_filter.
  pose proof (IH (λ k, P k ∧ k ≠ y) _) as IH'. cbn in IH'.
  destruct (decide (P y)) as [Hy|Hy].
  - unfold weight in *. cbn. rewrite IH'.
    rewrite (filter_split_length P y l).
    rewrite (list_filter_iff (λ k, P k ∧ k = y) (λ k, k = y))
      by (intros k; split; [by intros [_ ?] | by intros ->]).
    done.
  - rewrite IH'. f_equal. apply list_filter_iff.
    intros k; split; [by intros [? _] | intros ?; split; [done | by intros ->]].
Qed.

(** The counts of a counter add up to the length of the list. *)
Lemma weight_Counter (l : list A) : weight (Py.Counter l) = length l.
Proof.
  pose proof (weight_filter_Counter l (λ _, True)) as H. cbn in H.
  rewrite !filter_all in H by done. done.
Qed.

Lemma Counter_positive (l : list A) : Forall (λ kc, (1 <= kc.2)%nat) (Py.Counter l).
Proof.
  induction l as [|y l IH]; cbn; [done|].
  constructor; [cbn; lia|]. rewrite Forall_forall in IH.
  apply Forall_forall. intros kc [_ Hin]%list_elem_of_filter. auto.
Qed.
End Counting.

Lemma insert_leb_sorted x l :
  StronglySorted Z.le l → StronglySorted Z.le (Py.insert_by Z.leb x l).
Proof.
  induction 1 as [|y l Hl IH Hy]; cbn; [by repeat constructor|].
  destruct (Z.leb_spec x y).
  - constructor; [by constructor|]. constructor; [done|].
    eapply Forall_impl; [exact Hy|]. cbn. lia.
  - constructor; [done|]. rewrite insert_by_permutation.
    constructor; [lia | done].
Qed.

Lemma sorted_strongly_sorted l : StronglySorted Z.le (Py.sorted l).
Proof.
  induction l as [|x l IH]; cbn; [constructor|]. by apply insert_leb_sorted.
Qed.

Lemma remove_dups_length_le {A} `{EqDecision A} (l : list A) :
  (length (remove_dups l) <= length l)%nat.
Proof. induction l as [|x l IH]; cbn; [done|]. case_decide; cbn; lia. Qed.

Lemma remove_dups_full_length {A} `{EqDecision A} (l : list A) :
  length (remove_dups l) = length l → NoDup l.
Proof.
  induction l as [|x l IH]; cbn; [constructor|].
  pose proof (remove_dups_length_le l). case_decide; cbn; [lia|].
  intros [= Hl]. constructor; auto.
Qed.

Lemma remove_dups_nodup {A} `{EqDecision A} (l : list A) :
  NoDup l → remove_dups l = l.
Proof.
  induction 1 as [|x l Hx Hl IH]; cbn; [done|].
  case_decide; [done|]. by rewrite IH.
Qed.

(** On distinct elements every count is 1. *)
Lemma Counter_nodup {A} `{EqDecision A} (l : list A) :
  NoDup l → Py.Counter l = (λ x, (x, 1%nat)) <$> l.
Proof.
  induction 1 as [|x l Hx Hl IH]; cbn; [done|].
  rewrite IH. f_equal.
  - rewrite filter_none; [done|]. by intros y Hy ->.
  - apply filter_all. intros [y n] (z & [= -> ->] & Hz)%list_elem_of_fmap. cbn.
    by intros ->.
Qed.

(** The keys of a counter are the elements of the list. *)
Lemma Counter_keys {A} `{EqDecision A} (l : list A) (x : A) :
  x ∈ (Py.Counter l).*1 ↔ x ∈ l.
Proof.
  induction l as [|y l IH]; cbn; [done|].
  rewrite !elem_of_cons, <- IH, !list_elem_of_fmap.
  split.
  - intros [->|(kc & -> & (Hne & Hin)%list_elem_of_filter)]; [by left|].
    right. by exists kc.
  - intros [->|(kc & -> & Hin)]; [by left|].
    destruct (decide (kc.1 = y)) as [->|Hne]; [by left|].
    right. exists kc. split; [done|]. by apply list_elem_of_filter.
Qed.

(** A counter has a single key exactly when the list is not empty and all
    its elements are equal. *)
Lemma Counter_single {A} `{EqDecision A} (l : list A) :
  length (Py.Counter l) = 1%nat ↔ l ≠ [] ∧ ∀ x y, x ∈ l → y ∈ l → x = y.
Proof.
  destruct l as [|a l]; cbn; [split; [discriminate | by intros [? _]]|].
  split.
  - intros [= Hnil%length_zero_iff_nil]. split; [done|].
    assert (∀ x, x ∈ l → x = a) as Hall.
    { intros x Hx. destruct (decide (x = a)) as [|Hne]; [done|].
      apply Counter_keys, list_elem_of_fmap in Hx as (kc & -> & Hkc).
      exfalso. eapply (filter_nil_not_elem_of _ _ kc); eauto. }
    intros x y [->|Hx]%elem_of_cons [->|Hy]%elem_of_cons; auto.
    + symmetry; auto.
    + by rewrite (Hall x), (Hall y).
  - intros [_ Hall]. f_equal. apply length_zero_iff_nil, filter_none.
    intros kc Hkc Hne. apply Hne. apply Hall; [right|left].
    apply Counter_keys, list_elem_of_fmap. eauto.
Qed.

(** Counts by value: [keys_with k] has as many keys as there are entries
    of count [k]. *)
Lemma weight_by_count {A} (c : list (A * nat)) :
  Forall (λ kc, (1 <= kc.2)%nat) c →
  let big := length (filter (λ kc, (5 <= kc.2)%nat) c) in
  let small :=
    (length (Py.keys_with 1 c) + 2 * length (Py.keys_with 2 c)
     + 3 * length (Py.keys_with 3 c) + 4 * length (Py.keys_with 4 c))%nat in
  (small + 5 * big <= weight c)%nat ∧ (big = 0%nat → weight c = small).
Proof.
  unfold Py.keys_with, weight. rewrite !length_fmap. cbn zeta.
  induction 1 as [|[k n] c Hn Hc IH]; [cbn; lia|].
  rewrite !filter_cons. cbn [snd foldr] in *.
  repeat case_decide; subst; cbn [length]; lia.
Qed.

Lemma in_values_keys_with {A} (n : nat) (c : list (A * nat)) :
  Py.in_values n c = bool_decide (0 < length (Py.keys_with n c))%nat.
Proof.
  unfold Py.in_values, Py.keys_with. rewrite length_fmap.
  apply bool_decide_ext. induction c as [|[k m] c IH].
  - cbn. rewrite elem_of_nil. lia.
  - rewrite fmap_cons, elem_of_cons, filter_cons. cbn [snd].
    case_decide; cbn [length]; [|rewrite IH].
    + split; [lia | by left].
    + split; [intros [?|?]; [congruence | lia] | by right].
Qed.


(** ** Five-card hands *)
(** A hand is a flush for the evaluator exactly when its suits are not
    mixed. *)
Lemma is_flush_of_mixed (cards : list Card) :
  cards ≠ [] → (is_flush_of cards = false ↔ mixed_suits cards).
Proof.
  intros Hne. unfold is_flush_of, mixed_suits.
  rewrite bool_decide_eq_false, Counter_single. split.
  - intros Hnot.
    destruct (decide (Forall (λ c, suit c = from_option suit HEARTS (head cards)) cards))
      as [Hall|(c1 & Hc1 & Hs)%not_Forall_Exists%Exists_exists].
    + exfalso. apply Hnot. split; [by destruct cards|].
      rewrite Forall_forall in Hall.
      intros x y (c1 & -> & H1)%list_elem_of_fmap (c2 & -> & H2)%list_elem_of_fmap.
      by rewrite (Hall c1), (Hall c2).
    + destruct cards as [|c0 cards]; [done|]. cbn in Hs.
      exists c1, c0. split_and!; [done | by left | done].
    + apply _.
  - intros (c1 & c2 & H1 & H2 & Hs) [_ Hall]. apply Hs.
    apply Hall; apply list_elem_of_fmap; eauto.
Qed.

Lemma rank_value_bounds (r : Rank) : 2 <= rank_value r <= 14.
Proof. destruct r; cbn; lia. Qed.

Lemma ranks_of_bounds (cards : list Card) :
  Forall (λ r, 2 <= r <= 14) (ranks_of cards).
Proof. apply Forall_fmap, Forall_forall. intros c _. apply rank_value_bounds. Qed.

Lemma foldr_max_permutation (l1 l2 : list Z) b :
  l1 ≡ₚ l2 → foldr Z.max b l1 = foldr Z.max b l2.
Proof. induction 1; cbn; lia. Qed.

Lemma foldr_min_permutation (l1 l2 : list Z) b :
  l1 ≡ₚ l2 → foldr Z.min b l1 = foldr Z.min b l2.
Proof. induction 1; cbn; lia. Qed.

Lemma span_permutation (l1 l2 : list Z) : l1 ≡ₚ l2 → span l1 = span l2.
Proof.
  intros H. unfold span.
  by rewrite (foldr_max_permutation _ _ _ H), (foldr_min_permutation _ _ _ H).
Qed.

(** Five distinct ranks, once sorted. *)
Lemma sorted_five (ranks : list Z) :
  length ranks = 5%nat → NoDup ranks →
  ∃ a b c d e, Py.sorted (Py.set ranks) = [a; b; c; d; e]
               ∧ a < b ∧ b < c ∧ c < d ∧ d < e
               ∧ [a; b; c; d; e] ≡ₚ ranks.
Proof.
  intros Hlen Hnd. unfold Py.set. rewrite (remove_dups_nodup _ Hnd).
  pose proof (sorted_strongly_sorted ranks) as Hs.
  pose proof (sort_by_permutation Z.leb ranks) as Hp. fold (Py.sorted ranks) in Hp.
  assert (NoDup (Py.sorted ranks)) as Hnd' by by rewrite Hp.
  assert (length (Py.sorted ranks) = 5%nat) as Hlen' by by rewrite Hp.
  destruct (Py.sorted ranks) as [|a [|b [|c [|d [|e [|? ?]]]]]]; try done.
  exists a, b, c, d, e. split; [done|].
  repeat match goal with
         | H : StronglySorted _ (_ :: _) |- _ =>
             apply StronglySorted_inv in H as [? ?]
         | H : Forall _ (_ :: _) |- _ => apply Forall_cons in H as [? ?]
         | H : NoDup (_ :: _) |- _ => apply NoDup_cons in H as [? ?]
         | H : _ ∉ _ :: _ |- _ => apply not_elem_of_cons in H as [? ?]
         end.
  split_and!; try lia. done.
Qed.

Lemma in_values_nodup (n : nat) (ranks : list Z) :
  NoDup ranks → n ≠ 1%nat → Py.in_values n (Py.Counter ranks) = false.
Proof.
  intros Hnd Hn. unfold Py.in_values. rewrite (Counter_nodup _ Hnd).
  apply bool_decide_eq_false. rewrite <- list_fmap_compose.
  by intros (x & -> & _)%list_elem_of_fmap.
Qed.

(** The straight test of the evaluator against the spec's wording. *)
Lemma straight_check_spec (ranks : list Z) :
  length ranks = 5%nat → Forall (λ r, 2 <= r <= 14) ranks →
  ∃ fl sr,
    straight_check (Py.sorted (Py.set ranks)) = Some (fl, sr)
    ∧ (fl = true ↔ spec_straight ranks)
    ∧ (fl = true → NoDup ranks ∧ ∃ hi lo, last sr = Some hi ∧ head sr = Some lo)
    ∧ (ranks ≡ₚ [14; 5; 4; 3; 2] → fl = true ∧ sr = [1; 2; 3; 4; 5]).
Proof.
  intros Hlen Hbounds. destruct (decide (NoDup ranks)) as [Hnd|Hnd].
  - destruct (sorted_five ranks Hlen Hnd)
      as (a & b & c & d & e & -> & Hab & Hbc & Hcd & Hde & Hp).
    rewrite <- Hp in Hbounds.
    repeat match goal with
           | H : Forall _ (_ :: _) |- _ => apply Forall_cons in H as [? ?]
           end.
    assert (span ranks = e - a) as Hspan.
    { rewrite <- (span_permutation _ _ Hp). unfold span. cbn. lia. }
    assert (span (ace_low <$> ranks) = 4 → e - a ≠ 4 →
            [a; b; c; d; e] = [2; 3; 4; 5; 14]) as Hlow.
    { rewrite <- (span_permutation _ _ (fmap_Permutation ace_low _ _ Hp)).
      unfold span, ace_low. cbn. intros Hs Hne.
      repeat match type of Hs with
             | context [decide (?x = 14)] =>
                 destruct (decide (x = 14)); [try lia|]
             end;
        repeat f_equal; lia. }
    unfold straight_check. cbn.
    destruct (decide (e - a = 4)) as [Hea|Hea].
    + exists true, [a; b; c; d; e]. split_and!; [done| |by eauto 6|].
      * split; [|done]. intros _. split_and!; [done..|]. left. lia.
      * intros Hw. exfalso.
        assert (span ranks = 12) as Hs12
          by (rewrite (span_permutation _ _ Hw); reflexivity).
        lia.
    + destruct (decide ([a; b; c; d; e] = [2; 3; 4; 5; 14])) as [Hw|Hw].
      * exists true, [1; 2; 3; 4; 5]. split_and!; [done| |by eauto 6|done].
        split; [|done]. intros _. split_and!; [done..|]. right.
        rewrite <- (span_permutation _ _ (fmap_Permutation ace_low _ _ Hp)), Hw.
        reflexivity.
      * exists false, [a; b; c; d; e]. split_and!; [done| |done|].
        -- split; [done|]. intros (_ & _ & [Hs|Hs]); [lia|]. exfalso. auto.
        -- intros Hperm. exfalso. apply Hw.
           apply (StronglySorted_unique Z.le).
           ++ repeat constructor; lia.
           ++ repeat constructor; lia.
           ++ rewrite Hp, Hperm.
              apply (Permutation_sym (sort_by_permutation Z.leb [14; 5; 4; 3; 2])).
  - exists false, (Py.sorted (Py.set ranks)). split_and!.
    + unfold straight_check. case_decide as Hl; [|done]. exfalso. apply Hnd.
      apply remove_dups_full_length.
      unfold Py.sorted in Hl. rewrite sort_by_length in Hl. unfold Py.set in Hl. lia.
    + split; [done|]. by intros (? & _).
    + done.
    + intros Hperm. exfalso. apply Hnd. rewrite Hperm.
      apply (bool_decide_unpack (NoDup [14; 5; 4; 3; 2])). by vm_compute.
Qed.

(** With the straight flag up, the hand is a straight, a straight flush
    or a royal flush. *)
Lemma evaluate_five_straight (cards : list Card) (sr : list Z) (hi lo : Z) :
  straight_check (Py.sorted (Py.set (ranks_of cards))) = Some (true, sr) →
  NoDup (ranks_of cards) → last sr = Some hi → head sr = Some lo →
  _evaluate_five_cards cards =
    Some (if is_flush_of cards
          then if bool_decide (hi = 14) && bool_decide (lo = 10)
               then (ROYAL_FLUSH, [14]) else (STRAIGHT_FLUSH, [hi])
          else (STRAIGHT, [hi])).
Proof.
  intros Hsc Hnd Hhi Hlo. unfold _evaluate_five_cards.
  change ((λ c, rank_value (rank c)) <$> cards) with (ranks_of cards).
  rewrite Hsc. cbn.
  change (bool_decide (length (Py.Counter (suit <$> cards)) = 1%nat))
    with (is_flush_of cards).
  rewrite Hhi, Hlo.
  rewrite (in_values_nodup 4 _ Hnd), (in_values_nodup 3 _ Hnd) by done.
  destruct (is_flush_of cards); cbn; [|done].
  by destruct (bool_decide (hi = 14) && bool_decide (lo = 10)).
Qed.

(** With the straight flag down, it is none of them. *)
Lemma evaluate_five_no_straight (cards : list Card) (sr : list Z) (e : Evaluation) :
  straight_check (Py.sorted (Py.set (ranks_of cards))) = Some (false, sr) →
  _evaluate_five_cards cards = Some e →
  e.1 ∉ [STRAIGHT; STRAIGHT_FLUSH; ROYAL_FLUSH].
Proof.
  intros Hsc. unfold _evaluate_five_cards.
  change ((λ c, rank_value (rank c)) <$> cards) with (ranks_of cards).
  rewrite Hsc. cbn. rewrite andb_false_r. cbn.
  intros He.
  repeat (case_match; run_binds); rewrite !elem_of_cons, elem_of_nil; cbn;
    intros [?|[?|[?|[]]]]; done.
Qed.

(** Five cards have a single combination. *)
Lemma evaluate_hand_five (cards : list Card) :
  length cards = 5%nat → evaluate_hand cards = _evaluate_five_cards cards.
Proof.
  intros Hlen.
  destruct cards as [|c1 [|c2 [|c3 [|c4 [|c5 [|? ?]]]]]]; try done.
  unfold evaluate_hand. cbn.
  by destruct (_evaluate_five_cards [c1; c2; c3; c4; c5]).
Qed.

(** C8.  A five-card hand whose ranks are A, 5, 4, 3, 2 in any order and
    whose suits are mixed evaluates to STRAIGHT with tiebreaker [5] (not
    [14]).  In general the evaluation of a five-card hand is a straight
    (STRAIGHT, or STRAIGHT_FLUSH / ROYAL_FLUSH when suited) exactly when its
    five ranks are distinct and span exactly 4, the ace counting low in the
    wheel; it is STRAIGHT exactly when, in addition, the suits are mixed. *)
Theorem wheel_and_straights (cards : list Card) :
  length cards = 5%nat →
  (ranks_of cards ≡ₚ [14; 5; 4; 3; 2] → mixed_suits cards →
   evaluate_hand cards = Some (STRAIGHT, [5]))
  ∧ ((∃ e, evaluate_hand cards = Some e
           ∧ e.1 ∈ [STRAIGHT; STRAIGHT_FLUSH; ROYAL_FLUSH])
     ↔ spec_straight (ranks_of cards))
  ∧ ((∃ tiebreakers, evaluate_hand cards = Some (STRAIGHT, tiebreakers))
     ↔ spec_straight (ranks_of cards) ∧ mixed_suits cards).
Proof.
  intros Hlen. rewrite (evaluate_hand_five _ Hlen).
  assert (cards ≠ []) as Hne by by destruct cards.
  pose proof (is_flush_of_mixed cards Hne) as Hmixed.
  destruct (straight_check_spec (ranks_of cards))
    as (fl & sr & Hsc & Hspec & Hends & Hwheel).
  { unfold ranks_of. by rewrite length_fmap. }
  { apply ranks_of_bounds. }
  destruct fl.
  - destruct Hends as (Hnd & hi & lo & Hhi & Hlo); [done|].
    rewrite (evaluate_five_straight cards sr hi lo Hsc Hnd Hhi Hlo).
    split_and!.
    + intros Hw Hm. destruct (Hwheel Hw) as [_ ->].
      apply Hmixed in Hm. rewrite Hm. by simplify_eq/=.
    + split; [intros _; by apply Hspec|]. intros _. eexists. split; [done|].
      destruct (is_flush_of cards); [|by left]. cbn.
      destruct (bool_decide (hi = 14) && bool_decide (lo = 10)); cbn;
        rewrite !elem_of_cons; auto.
    + split.
      * intros [tb Htb]. split; [by apply Hspec|]. apply Hmixed.
        destruct (is_flush_of cards); [|done].
        by destruct (bool_decide (hi = 14) && bool_decide (lo = 10)).
      * intros [_ Hm%Hmixed]. rewrite Hm. eauto.
  - assert (¬ spec_straight (ranks_of cards)) as Hno
      by (intros Hs%Hspec; done).
    split_and!.
    + intros Hw. by destruct (Hwheel Hw).
    + split; [|done]. intros (e & He & Hcat). exfalso.
      by apply (evaluate_five_no_straight cards sr e Hsc He).
    + split; [|by intros [? _]]. intros (tb & He). exfalso.
      apply (evaluate_five_no_straight cards sr _ Hsc He). by left.
Qed.

Lemma wheel_and_straights_witness :
  evaluate_hand wheel = Some (STRAIGHT, [5]).
Proof.
  refine (proj1 (wheel_and_straights wheel eq_refl) _ _).
  - reflexivity.
  - exists (mkCard ACE SPADES), (mkCard FIVE HEARTS).
    split_and!; [by left | by right; left | discriminate].
Defined.

(** ** Shape of the evaluations *)
(** Every category comes with a fixed number of tiebreakers. *)
Lemma evaluate_five_shape (cards : list Card) (e : Evaluation) :
  length cards = 5%nat → _evaluate_five_cards cards = Some e →
  length e.2 = tiebreaker_count e.1.
Proof.
  intros Hlen He. unfold _evaluate_five_cards in He.
  change ((λ c, rank_value (rank c)) <$> cards) with (ranks_of cards) in He.
  assert (length (ranks_of cards) = 5%nat) as Hranks
    by (unfold ranks_of; by rewrite length_fmap).
  pose proof (weight_Counter (ranks_of cards)) as Hw. rewrite Hranks in Hw.
  destruct (weight_by_count _ (Counter_positive (ranks_of cards))) as [Hle Heq].
  rewrite !in_values_keys_with in He.
  set (c := Py.Counter (ranks_of cards)) in *.
  set (is_flush := bool_decide (length (Py.Counter (suit <$> cards)) = 1%nat)) in *.
  destruct (straight_check (Py.sorted (Py.set (ranks_of cards)))) as [[fl sr]|];
    [|done].
  cbn [mbind option_bind] in He.
  destruct is_flush, fl; cbn [andb] in He.
  all: repeat case_bool_decide.
  all: cbn [andb mbind option_bind] in He.
  all: repeat (case_match || case_decide || (progress run_binds)).
  all: cbn [length fst snd tiebreaker_count].
  all: rewrite ?length_app; unfold Py.sorted_reverse; rewrite ?sort_by_length.
  all: cbn [length]; lia.
Qed.

Lemma combinations_length {A} (k : nat) :
  ∀ (l : list A) (combo : list A), combo ∈ Py.combinations l k → length combo = k.
Proof.
  induction k as [|k IHk]; intros l combo.
  - destruct l; cbn; by intros ->%list_elem_of_singleton.
  - induction l as [|x l IHl]; cbn; [by intros ?%elem_of_nil|].
    intros [(t & -> & Ht)%list_elem_of_fmap|Hin]%elem_of_app.
    + cbn. f_equal. by apply (IHk l).
    + by apply IHl.
Qed.

(** The running best of [evaluate_hand] is always the evaluation of one
    of the combinations seen so far. *)
Lemma best_of_some (combos : list (list Card)) :
  ∀ best e, best_of combos best = Some (Some e) →
            best = Some e
            ∨ ∃ combo, combo ∈ combos ∧ _evaluate_five_cards combo = Some e.
Proof.
  induction combos as [|combo combos IH]; intros best e; cbn.
  - intros [= ->]. by left.
  - destruct (_evaluate_five_cards combo) as [e'|] eqn:He'; [cbn|done].
    assert (∀ b, b = Some e' ∨ b = best → best_of combos b = Some (Some e) →
                 best = Some e
                 ∨ ∃ combo0, combo0 ∈ combo :: combos
                             ∧ _evaluate_five_cards combo0 = Some e) as Hstep.
    { intros b Hb [->|(c0 & Hc0 & He0)]%IH.
      - destruct Hb as [[= ->]| ->]; [right | by left].
        exists combo. split; [by left | done].
      - right. exists c0. split; [by right | done]. }
    destruct best as [b|]; [case_match|]; apply Hstep; auto.
Qed.

Lemma evaluate_hand_shape (cards : list Card) (e : Evaluation) :
  evaluate_hand cards = Some e → length e.2 = tiebreaker_count e.1.
Proof.
  unfold evaluate_hand. case_decide; [done|].
  destruct (best_of (Py.combinations cards 5) None) as [[e'|]|] eqn:Hbest;
    cbn; try done.
  intros [= ->].
  apply best_of_some in Hbest as [?|(combo & Hin & He)]; [done|].
  apply (evaluate_five_shape combo); [|done].
  by apply (combinations_length 5 cards).
Qed.

(** Any two results of the evaluator have the same shape. *)
Lemma evaluate_hand_same_shape (cards1 cards2 : list Card) (e1 e2 : Evaluation) :
  evaluate_hand cards1 = Some e1 → evaluate_hand cards2 = Some e2 →
  same_shape e1 e2.
Proof.
  intros H1%evaluate_hand_shape H2%evaluate_hand_shape Hcat.
  by rewrite H1, H2, Hcat.
Qed.

(** ** The comparator *)
Lemma value_inj h1 h2 : value h1 = value h2 → h1 = h2.
Proof. destruct h1, h2; cbn; intros; congruence || lia. Qed.

Lemma compare_tiebreakers_refl l : compare_tiebreakers (Py.zip l l) = 0.
Proof. induction l as [|x l IH]; cbn; [done|]. rewrite Z.ltb_irrefl. done. Qed.

Lemma compare_tiebreakers_flip a : ∀ b,
  compare_tiebreakers (Py.zip a b) = - compare_tiebreakers (Py.zip b a).
Proof.
  induction a as [|x a IH]; intros [|y b]; cbn; try done.
  destruct (Z.ltb_spec y x), (Z.ltb_spec x y); try lia. apply IH.
Qed.

Lemma compare_tiebreakers_range a : ∀ b,
  -1 <= compare_tiebreakers (Py.zip a b) <= 1.
Proof.
  induction a as [|x a IH]; intros [|y b]; cbn; try lia.
  destruct (Z.ltb_spec y x), (Z.ltb_spec x y); try lia. apply IH.
Qed.

Lemma compare_tiebreakers_eq a : ∀ b,
  length a = length b → compare_tiebreakers (Py.zip a b) = 0 → a = b.
Proof.
  induction a as [|x a IH]; intros [|y b]; cbn; try done.
  intros [= Hlen]. destruct (Z.ltb_spec y x), (Z.ltb_spec x y); try lia.
  intros Hc. f_equal; [lia | by apply IH].
Qed.

Lemma compare_tiebreakers_trans a : ∀ b c,
  length a = length b → length b = length c →
  0 <= compare_tiebreakers (Py.zip a b) →
  0 <= compare_tiebreakers (Py.zip b c) →
  0 <= compare_tiebreakers (Py.zip a c).
Proof.
  induction a as [|x a IH]; intros [|y b] [|z c]; cbn; try done.
  intros [= Hab] [= Hbc].
  destruct (Z.ltb_spec y x), (Z.ltb_spec x y), (Z.ltb_spec z y), (Z.ltb_spec y z),
    (Z.ltb_spec z x), (Z.ltb_spec x z); try lia.
  by apply IH.
Qed.

(** C9 as stated fails: [zip] stops at the shorter list, so two different
    evaluations compare equal. *)
Lemma compare_hands_counterexample :
  _compare_hands (HIGH_CARD, [5]) (HIGH_CARD, [5; 3]) = 0
  ∧ (HIGH_CARD, [5]) ≠ (HIGH_CARD, [5; 3]).
Proof. split; [reflexivity | discriminate]. Qed.

(** C9, amended.  On evaluations whose tiebreaker lists have the same
    length whenever their categories agree, [_compare_hands] is a total
    order: [compare x x = 0]; [compare x y = 0] only for [x = y];
    [compare x y >= 0] and [compare y z >= 0] give [compare x z >= 0]; any
    two are comparable, and swapping the arguments negates the result.
    [evaluate_hand_same_shape] shows that every pair of results of
    [evaluate_hand] is of that kind. *)
Theorem compare_hands_total_order (x y z : Evaluation) :
  same_shape x y → same_shape y z → same_shape x z →
  _compare_hands x x = 0
  ∧ (_compare_hands x y = 0 → x = y)
  ∧ (0 <= _compare_hands x y → 0 <= _compare_hands y z → 0 <= _compare_hands x z)
  ∧ (0 <= _compare_hands x y ∨ 0 <= _compare_hands y x)
  ∧ _compare_hands x y = - _compare_hands y x.
Proof.
  destruct x as [hx tx], y as [hy ty], z as [hz tz].
  unfold same_shape; cbn. intros Hxy Hyz Hxz.
  pose proof (compare_tiebreakers_flip tx ty) as Hflip.
  pose proof (compare_tiebreakers_range tx ty) as Hrange.
  split_and!.
  - rewrite Z.ltb_irrefl. apply compare_tiebreakers_refl.
  - destruct (Z.ltb_spec (value hy) (value hx)), (Z.ltb_spec (value hx) (value hy)); try lia.
    intros Hzero. assert (hx = hy) as -> by (apply value_inj; lia).
    f_equal. apply compare_tiebreakers_eq; auto.
  - destruct (Z.ltb_spec (value hy) (value hx)), (Z.ltb_spec (value hx) (value hy)),
      (Z.ltb_spec (value hz) (value hy)), (Z.ltb_spec (value hy) (value hz)),
      (Z.ltb_spec (value hz) (value hx)), (Z.ltb_spec (value hx) (value hz)); try lia.
    assert (hx = hy) as -> by (apply value_inj; lia).
    assert (hy = hz) as -> by (apply value_inj; lia).
    apply compare_tiebreakers_trans; auto.
  - destruct (Z.ltb_spec (value hy) (value hx)), (Z.ltb_spec (value hx) (value hy)); try lia.
  - destruct (Z.ltb_spec (value hy) (value hx)), (Z.ltb_spec (value hx) (value hy)); try lia.
Qed.

Lemma compare_hands_total_order_witness :
  0 <= _compare_hands (PAIR, [9; 14; 7; 3]) (PAIR, [9; 13; 12; 11]).
Proof.
  pose proof (compare_hands_total_order
                (PAIR, [9; 14; 7; 3]) (PAIR, [9; 14; 5; 2]) (PAIR, [9; 13; 12; 11])
                (λ _, eq_refl) (λ _, eq_refl) (λ _, eq_refl)) as H.
  apply H; cbn; lia.
Defined.

(** ** Chip ledger *)
Section Ledger.
Variable p : Player.Player.
Variable amount : Z.
Hypothesis Hinv : ledger_invariant p.
Hypothesis Hamount : 0 <= amount.

Lemma remove_chips_invariant : ledger_invariant (Player.remove_chips amount p).2.
Proof.
  destruct Hinv as [Hc Ha]. unfold ledger_invariant, Player.remove_chips.
  cbn. case_decide as Hz; cbn in *; split; try lia; intros; try lia.
  apply Ha in H. lia.
Qed.

Lemma bet_invariant : ledger_invariant (Player.bet amount p).2.
Proof.
  destruct Hinv as [Hc Ha]. unfold ledger_invariant, Player.bet, Player.remove_chips.
  case_decide as Hge; cbn; case_decide as Hz; cbn in *; split; try lia; intros; try lia.
  apply Ha in H. lia.
Qed.
End Ledger.

(** C7 as stated fails: crediting an all-in player (what [_showdown] does
    for an all-in winner) leaves the all-in flag set on a non-empty stack. *)
Lemma ledger_counterexample :
  let p := Scenarios.all_in_seat "p0" "Alice" 200 in
  ledger_invariant p ∧ ¬ ledger_invariant (Player.add_chips 100 p).
Proof.
  cbn. split.
  - split; [cbn; lia | done].
  - intros [_ H]. cbn in H. specialize (H eq_refl). lia.
Qed.

(** C7, amended.  For a non-negative amount, every ledger operation keeps
    the stack non-negative; [remove_chips], [bet], [fold] and both resets
    keep "all-in implies empty stack", and [add_chips] keeps it when the
    player is not all-in (or nothing is added); [add_chips], [remove_chips]
    and [fold] leave the committed-this-round counters untouched, so only
    [bet] and the resets change them. *)
Theorem ledger_operations (p : Player.Player) (amount : Z) :
  ledger_invariant p → 0 <= amount →
  0 <= Player.chips (Player.add_chips amount p)
  ∧ (Player.is_all_in p = false ∨ amount = 0 → ledger_invariant (Player.add_chips amount p))
  ∧ ledger_invariant (Player.remove_chips amount p).2
  ∧ ledger_invariant (Player.bet amount p).2
  ∧ ledger_invariant (Player.fold p)
  ∧ ledger_invariant (Player.reset_for_new_hand p)
  ∧ ledger_invariant (Player.reset_for_new_round p)
  ∧ committed (Player.add_chips amount p) = committed p
  ∧ committed (Player.remove_chips amount p).2 = committed p
  ∧ committed (Player.fold p) = committed p.
Proof.
  intros Hinv Hamount. pose proof Hinv as [Hc Ha].
  split_and!.
  - cbn. lia.
  - intros [Hf | ->]; split; cbn; try lia; intros; try congruence. apply Ha in H. lia.
  - by apply remove_chips_invariant.
  - by apply bet_invariant.
  - done.
  - split; cbn; [done | congruence].
  - done.
  - done.
  - unfold Player.remove_chips. cbn. by case_decide.
  - done.
Qed.

Lemma ledger_operations_witness :
  ledger_invariant (Player.bet 30 (Player.init "p0" "Alice" 100)).2.
Proof.
  refine (proj1 (proj2 (proj2 (proj2 (ledger_operations (Player.init "p0" "Alice" 100) 30 _ _))))).
  - split; cbn; [lia | congruence].
  - lia.
Defined.

(** ** Snapshots *)
Section Views.
Variable P : Player.Player → Prop.
Context `{HP : ∀ ip : nat * Player.Player, Decision (P ip.2)}.
Hypothesis P_without_hand : ∀ p, P p ↔ P (without_hand p).

Lemma filter_seats_without_hand (l1 : list Player.Player) :
  ∀ (l2 : list Player.Player) (i : nat),
    without_hand <$> l1 = without_hand <$> l2 →
    (filter (λ ip : nat * Player.Player, P ip.2) (enumerate_from i l1)).*1
    = (filter (λ ip : nat * Player.Player, P ip.2) (enumerate_from i l2)).*1.
Proof.
  induction l1 as [|p1 l1 IH]; intros [|p2 l2] i; try done.
  rewrite !fmap_cons. intros Heq.
  assert (without_hand p1 = without_hand p2) as Hp
    by (apply (inj Some); exact (f_equal head Heq)).
  assert (without_hand <$> l1 = without_hand <$> l2) as Hl
    by exact (f_equal tail Heq).
  change (enumerate_from i (p1 :: l1)) with ((i, p1) :: enumerate_from (S i) l1).
  change (enumerate_from i (p2 :: l2)) with ((i, p2) :: enumerate_from (S i) l2).
  rewrite !filter_cons. cbn.
  assert (P p1 ↔ P p2) as Hiff.
  { pose proof (P_without_hand p1) as Hw1. pose proof (P_without_hand p2) as Hw2.
    rewrite Hp in Hw1. tauto. }
  repeat case_decide; cbn in *; try tauto; [f_equal|]; by apply IH.
Qed.
End Views.

(** Who may act does not depend on anybody's hole cards. *)
Lemma eligible_seats_without_hand (g1 g2 : TexasHoldemGame) :
  without_hand <$> players g1 = without_hand <$> players g2 →
  (get_eligible_players g1).*1 = (get_eligible_players g2).*1.
Proof.
  intros H. unfold get_eligible_players, get_active_players, seated.
  rewrite !list_filter_filter.
  apply (filter_seats_without_hand
           (λ p, Player.can_act p = true
                 ∧ Player.is_active p = true ∧ Player.is_sitting_out p = false));
    [done | exact H].
Qed.

Lemma get_current_player_seats (g : TexasHoldemGame) :
  get_current_player g =
    match (get_eligible_players g).*1 with
    | [] => None
    | _ => (get_eligible_players g).*1
             !! (current_player_index g mod length (get_eligible_players g).*1)%nat
    end.
Proof.
  unfold get_current_player.
  rewrite list_lookup_fmap, length_fmap.
  by destruct (get_eligible_players g).
Qed.

(** C10.  Two tables that differ only in the hole cards of players other
    than the one at seat [player] give that player the same snapshot, and
    the snapshot carries the player's own hole cards. *)
Theorem snapshot_hides_other_hands (player : nat) (g1 g2 : TexasHoldemGame) :
  differ_in_other_hands player g1 g2 →
  get_game_state_for_player g1 player = get_game_state_for_player g2 player
  ∧ ∀ p, players g1 !! player = Some p →
         ∃ s, get_game_state_for_player g1 player = Some s
              ∧ snap_hand s = Player.hand p.
Proof.
  intros (Hrest & Hviews & Hown). split.
  - unfold get_game_state_for_player.
    assert (get_current_player g1 = get_current_player g2) as Hturn.
    { rewrite !get_current_player_seats.
      rewrite (eligible_seats_without_hand g1 g2 Hviews).
      by replace (current_player_index g1) with (current_player_index g2)
        by (injection Hrest; congruence). }
    assert ((λ q, mkView (Player.name q) (Player.chips q) (Player.current_bet q)
                    (Player.is_active q) (Player.is_all_in q)) <$> players g1
            = (λ q, mkView (Player.name q) (Player.chips q) (Player.current_bet q)
                      (Player.is_active q) (Player.is_all_in q)) <$> players g2)
      as Hseen.
    { change (λ q, mkView (Player.name q) (Player.chips q) (Player.current_bet q)
                     (Player.is_active q) (Player.is_all_in q))
        with ((λ q, mkView (Player.name q) (Player.chips q) (Player.current_bet q)
                      (Player.is_active q) (Player.is_all_in q)) ∘ without_hand).
      by rewrite !list_fmap_compose, Hviews. }
    rewrite Hown, Hturn, Hseen.
    destruct (players g2 !! player) as [p|]; [cbn | done].
    injection Hrest; intros; congruence.
  - intros p Hp. unfold get_game_state_for_player. rewrite Hp. cbn. eauto.
Qed.

Lemma snapshot_hides_other_hands_witness :
  get_game_state_for_player (dealt [mkCard TWO HEARTS; mkCard SEVEN CLUBS]) 0
  = get_game_state_for_player (dealt [mkCard QUEEN HEARTS; mkCard QUEEN CLUBS]) 0.
Proof.
  apply (snapshot_hides_other_hands 0
           (dealt [mkCard TWO HEARTS; mkCard SEVEN CLUBS])
           (dealt [mkCard QUEEN HEARTS; mkCard QUEEN CLUBS])).
  repeat split; reflexivity.
Defined.

(** ** Rejections *)
(** A failed [start_hand] hands the table back untouched. *)
Lemma start_hand_failure shuffle g r g' :
  start_hand shuffle g = Some (r, g') → succeeded r = false →
  r = Flag false ∧ g' = g.
Proof.
  unfold start_hand. case_decide as Hn.
  - by intros [= <- <-].
  - intros H Hr; run_binds; done.
Qed.

(** A failed [process_action] hands the table back untouched, with a
    message. *)
Lemma process_action_failure g player action amount r g' :
  process_action g player action amount = Some (r, g') → succeeded r = false →
  g' = g ∧ ∃ m, r = Reply false m ∧ m ≠ "".
Proof.
  unfold process_action. intros H Hr.
  repeat (case_decide; run_binds; try done);
    try (split; [done | eexists; split; [done | done]]).
Qed.

Lemma start_hand_too_few shuffle g :
  (length (funded_seats g) < 2)%nat → start_hand shuffle g = Some (Flag false, g).
Proof. intros H. unfold start_hand. fold (funded_seats g). by case_decide. Qed.

Ltac turned_down := eexists; split; [reflexivity | done].

Lemma process_action_rejects g player action amount :
  state g ≠ IN_PROGRESS
  ∨ player ∉ (get_eligible_players g).*1
  ∨ get_current_player g ≠ Some player
  ∨ (∃ p, players g !! player = Some p ∧ violates_precondition g p action amount) →
  rejected_with_message (process_action g player action amount) g.
Proof.
  unfold process_action, rejected_with_message.
  intros H.
  case_decide; [turned_down|]. case_decide; [turned_down|].
  case_decide; [turned_down|].
  destruct H as [?|[?|[?|(p & Hp & Hv)]]]; try done.
  rewrite Hp. cbn.
  destruct Hv as [[-> ?]|[[-> ?]|[[-> ?]|[[-> ?]|Hv]]]];
    repeat case_decide; try discriminate; try lia; try turned_down.
  all: exfalso; apply Hv; subst; rewrite !elem_of_cons; auto 10.
Qed.

(** C5 as stated fails for [start_hand]: the refusal is a bare [False],
    there is no message. *)
Lemma start_hand_counterexample :
  start_hand id (init "game1" 5 10) = Some (Flag false, init "game1" 5 10)
  ∧ ¬ rejected_with_message (start_hand id (init "game1" 5 10)) (init "game1" 5 10).
Proof. split; [reflexivity | by intros (m & [=] & _)]. Qed.

(** C5, amended.  Whenever [start_hand] fails it returns a bare [False]
    (no message) and the table is unchanged; it fails when fewer than two
    seats are funded.  Whenever [process_action] fails it returns
    [(False, message)] with a non-empty message and the table is unchanged;
    it fails when the table is not IN_PROGRESS, the player is not eligible,
    it is not the player's turn, or an action precondition is violated. *)
Theorem rejection_leaves_state_unchanged
    (shuffle : list Card → list Card) (g : TexasHoldemGame)
    (player : nat) (action : string) (amount : Z) :
  (∀ r g', start_hand shuffle g = Some (r, g') → succeeded r = false →
           r = Flag false ∧ g' = g)
  ∧ ((length (funded_seats g) < 2)%nat → start_hand shuffle g = Some (Flag false, g))
  ∧ (∀ r g', process_action g player action amount = Some (r, g') →
             succeeded r = false →
             rejected_with_message (Some (r, g')) g)
  ∧ (state g ≠ IN_PROGRESS
     ∨ player ∉ (get_eligible_players g).*1
     ∨ get_current_player g ≠ Some player
     ∨ (∃ p, players g !! player = Some p
             ∧ violates_precondition g p action amount) →
     rejected_with_message (process_action g player action amount) g).
Proof.
  split_and!.
  - apply start_hand_failure.
  - apply start_hand_too_few.
  - intros r g' H Hr.
    destruct (process_action_failure _ _ _ _ _ _ H Hr) as (-> & m & -> & Hm).
    by exists m.
  - apply process_action_rejects.
Qed.

Lemma rejection_leaves_state_unchanged_witness :
  rejected_with_message
    (process_action (init "game1" 5 10) 0 Player.CHECK 0) (init "game1" 5 10).
Proof.
  apply (rejection_leaves_state_unchanged id (init "game1" 5 10) 0 Player.CHECK 0).
  left. discriminate.
Defined.

(** ** Chips in play *)
Lemma stack_sum_insert (ps : list Player.Player) :
  ∀ (i : nat) (p p' : Player.Player),
    ps !! i = Some p →
    stack_sum (<[i := p']> ps) = stack_sum ps - Player.chips p + Player.chips p'.
Proof.
  induction ps as [|q ps IH]; intros i p p' Hp; [done|].
  destruct i as [|i]; cbn in Hp.
  - injection Hp as ->. unfold stack_sum. cbn [foldr insert list_insert]. lia.
  - change (<[S i := p']> (q :: ps)) with (q :: <[i := p']> ps).
    unfold stack_sum in *. cbn [foldr]. rewrite (IH i p p' Hp). lia.
Qed.

Lemma stack_sum_fmap (f : Player.Player → Player.Player) (ps : list Player.Player) :
  (∀ p, Player.chips (f p) = Player.chips p) →
  stack_sum (f <$> ps) = stack_sum ps.
Proof.
  intros Hf. induction ps as [|q ps IH]; cbn; [done|].
  unfold stack_sum in IH. by rewrite Hf, IH.
Qed.

(** [bet] takes from the stack exactly what it returns. *)
Lemma bet_moves_chips (amount : Z) (p : Player.Player) :
  Player.chips (Player.bet amount p).2
  = Player.chips p - (Player.bet amount p).1.
Proof.
  unfold Player.bet, Player.remove_chips.
  repeat case_decide; cbn; lia.
Qed.

Lemma keeps_chips_refl g : keeps_chips g g.
Proof. done. Qed.

Lemma keeps_chips_trans g1 g2 g3 :
  keeps_chips g1 g2 → keeps_chips g2 g3 → keeps_chips g1 g3.
Proof. unfold keeps_chips. intros [-> ->] [-> ->]. done. Qed.

Lemma update_player_keeps_chips seat f g g' :
  (∀ p, Player.chips (f p) = Player.chips p) →
  update_player seat f g = Some g' →
  keeps_chips g g' ∧ state g' = state g.
Proof.
  intros Hf. unfold update_player. destruct (players g !! seat) as [p|] eqn:Hp; [|done].
  intros [= <-]. unfold keeps_chips, total_stacks. cbn.
  fold (stack_sum (<[seat:=f p]> (players g))). fold (stack_sum (players g)).
  rewrite (stack_sum_insert _ _ p) by done. rewrite Hf. split_and!; [lia|done..].
Qed.

Lemma award_adds_chips seat amount g g' :
  update_player seat (Player.add_chips amount) g = Some g' →
  total_stacks g' = total_stacks g + amount ∧ pot g' = pot g ∧ state g' = state g.
Proof.
  unfold update_player. destruct (players g !! seat) as [p|] eqn:Hp; [|done].
  intros [= <-]. unfold total_stacks. cbn.
  fold (stack_sum (<[seat:=Player.add_chips amount p]> (players g))).
  fold (stack_sum (players g)).
  rewrite (stack_sum_insert _ _ p) by done. cbn. split_and!; [lia|done..].
Qed.

Lemma bet_at_moves_chips seat amount g b g' :
  bet_at seat amount g = Some (b, g') →
  total_stacks g' = total_stacks g - b ∧ pot g' = pot g ∧ state g' = state g.
Proof.
  unfold bet_at. destruct (players g !! seat) as [p|] eqn:Hp; [cbn|done].
  pose proof (bet_moves_chips amount p) as Hb.
  destruct (Player.bet amount p) as [b' p']. intros [= <- <-].
  unfold total_stacks. cbn in *.
  fold (stack_sum (<[seat:=p']> (players g))). fold (stack_sum (players g)).
  rewrite (stack_sum_insert _ _ p) by done. split_and!; [lia|done..].
Qed.

Lemma deck_deal_keeps_chips n g dealt g' :
  deck_deal n g = Some (dealt, g') →
  g' = set_deck (drop n (deck g)) g.
Proof.
  unfold deck_deal, deal. case_decide; [done|]. cbn. by intros [= _ <-].
Qed.

Lemma reset_betting_round_keeps_chips g g' :
  _reset_betting_round g = Some g' → keeps_chips g g' ∧ state g' = state g.
Proof.
  unfold _reset_betting_round.
  assert (keeps_chips g
            (set_players (Player.reset_for_new_round <$> players g)
               (set_acted_this_round ∅ (set_current_bet 0 g)))) as Hk.
  { unfold keeps_chips, total_stacks. cbn. split; [|done].
    by apply stack_sum_fmap. }
  intros H. repeat case_match; simplify_option_eq; done.
Qed.

(** Unfolds the deals of a street and leaves the round reset. *)
Ltac street_deals :=
  repeat match goal with
         | H : deck_deal _ _ = Some _ |- _ =>
             apply deck_deal_keeps_chips in H; subst
         | H : _reset_betting_round _ = Some _ |- _ =>
             apply reset_betting_round_keeps_chips in H as [[? ?] ?]
         end;
  unfold keeps_chips, total_stacks in *; cbn in *; split; congruence.

Lemma deal_flop_keeps_chips g g' : _deal_flop g = Some g' → keeps_chips g g'.
Proof. unfold _deal_flop. intros H. run_binds. street_deals. Qed.

Lemma deal_turn_keeps_chips g g' : _deal_turn g = Some g' → keeps_chips g g'.
Proof. unfold _deal_turn. intros H. run_binds. street_deals. Qed.

Lemma deal_river_keeps_chips g g' : _deal_river g = Some g' → keeps_chips g g'.
Proof. unfold _deal_river. intros H. run_binds. street_deals. Qed.

Lemma showdown_in_progress g g' :
  _showdown g = Some g' → state g' = IN_PROGRESS → keeps_chips g g'.
Proof.
  unfold _showdown. case_decide as Hn.
  - by intros [= <-].
  - intros Hrun Hs; run_binds; done.
Qed.

Lemma check_betting_round_complete_in_progress g g' :
  _check_betting_round_complete g = Some g' → state g' = IN_PROGRESS →
  keeps_chips g g'.
Proof.
  unfold _check_betting_round_complete. intros H Hs.
  assert (match betting_round g with
          | PRE_FLOP => _deal_flop g
          | FLOP => _deal_turn g
          | TURN => _deal_river g
          | RIVER => _showdown g
          | SHOWDOWN => Some g
          end = Some g' → keeps_chips g g') as Hround.
  { destruct (betting_round g); intros Hr.
    - by apply deal_flop_keeps_chips.
    - by apply deal_turn_keeps_chips.
    - by apply deal_river_keeps_chips.
    - by apply showdown_in_progress.
    - by injection Hr as <-. }
  destruct (get_active_players g) as [|[w pw] [|? ?]]; [by apply Hround| |by apply Hround].
  run_binds; done.
Qed.

Lemma advance_in_progress g g' :
  _advance_to_next_player g = Some g' → state g' = IN_PROGRESS →
  keeps_chips g g'.
Proof.
  unfold _advance_to_next_player. intros H Hs.
  destruct (get_eligible_players g) as [|e es];
    [by apply check_betting_round_complete_in_progress|].
  repeat case_match; simplify_eq;
    try (apply check_betting_round_complete_in_progress in H as [? ?]; [|done]);
    done.
Qed.

Ltac chip_facts :=
  repeat match goal with
         | H : bet_at _ _ _ = Some _ |- _ =>
             apply bet_at_moves_chips in H as (? & ? & ?)
         | H : update_player _ Player.fold _ = Some _ |- _ =>
             apply update_player_keeps_chips in H as [[? ?] ?]; [|done]
         | H : _advance_to_next_player _ = Some _ |- _ =>
             apply advance_in_progress in H as [? ?]; [|done]
         end;
  unfold total_stacks in *; cbn in *; try lia.

(** While the hand is in progress an action moves chips between the
    stacks and the pot and nothing else. *)
Lemma process_action_conserves g player action amount r g' :
  process_action g player action amount = Some (r, g') →
  state g' = IN_PROGRESS →
  total_stacks g' + pot g' = total_stacks g + pot g.
Proof.
  unfold process_action. intros H Hs.
  repeat (case_decide; run_binds; try done); chip_facts.
Qed.

Lemma deal_hole_cards_keeps_chips (seats : list nat) :
  ∀ g g', deal_hole_cards seats g = Some g' → keeps_chips g g'.
Proof.
  induction seats as [|seat seats IH]; intros g g'; cbn.
  - by intros [= <-].
  - intros H. run_binds.
    match goal with
    | H : deck_deal _ _ = Some _ |- _ => apply deck_deal_keeps_chips in H; subst
    end.
    match goal with
    | H : update_player _ _ _ = Some _ |- _ =>
        apply update_player_keeps_chips in H as [Hk _]; [|done]
    end.
    match goal with
    | H : deal_hole_cards _ _ = Some _ |- _ => apply IH in H
    end.
    eapply keeps_chips_trans; [|eassumption].
    eapply keeps_chips_trans; [|eassumption]. done.
Qed.

(** A started hand holds exactly the chips the players sat down with. *)
Lemma start_hand_conserves shuffle g r g' :
  start_hand shuffle g = Some (r, g') → succeeded r = true →
  total_stacks g' + pot g' = total_stacks g ∧ state g' = IN_PROGRESS.
Proof.
  unfold start_hand. case_decide as Hn; [by intros [= <- <-]|].
  intros H _. run_binds.
  match goal with
  | H : deal_hole_cards _ _ = Some _ |- _ =>
      apply deal_hole_cards_keeps_chips in H as [Hd1 Hd2]
  end.
  repeat match goal with
         | H : bet_at _ _ _ = Some _ |- _ =>
             apply bet_at_moves_chips in H as (? & ? & ?)
         end.
  split; [|done].
  assert (stack_sum (Player.reset_for_new_hand <$> players g) = stack_sum (players g))
    as Hreset by by apply stack_sum_fmap.
  unfold total_stacks, stack_sum in *; cbn in *. lia.
Qed.

(** From a started hand, whatever is played, the chips in the stacks and
    the pot add up to the stacks at hand start for as long as the hand is
    in progress. *)
Lemma played_hand_conserves (actions : list (nat * string * Z)) :
  ∀ r1 g1 r g,
    foldl act (Some (r1, g1)) actions = Some (r, g) →
    state g = IN_PROGRESS →
    state g1 = IN_PROGRESS
    ∧ total_stacks g + pot g = total_stacks g1 + pot g1.
Proof.
  induction actions as [|a actions IH] using rev_ind; intros r1 g1 r g.
  - cbn. by intros [= _ ->].
  - rewrite foldl_app. cbn.
    destruct (foldl act (Some (r1, g1)) actions) as [[r' g']|] eqn:Hrun; [cbn|done].
    intros Hstep Hs.
    assert (state g' = IN_PROGRESS) as Hs'.
    { destruct (decide (state g' = IN_PROGRESS)) as [|Hne]; [done|].
      unfold process_action in Hstep. rewrite decide_True in Hstep by done.
      by injection Hstep as _ <-. }
    destruct (IH r1 g1 r' g' Hrun Hs') as [Hs1 Hsum].
    split; [done|].
    rewrite <- Hsum. by eapply process_action_conserves.
Qed.

Lemma enumerate_from_lookup {A} (l : list A) :
  ∀ (k i : nat) (x : A),
    (i, x) ∈ enumerate_from k l → (k <= i)%nat ∧ l !! (i - k)%nat = Some x.
Proof.
  induction l as [|y l IH]; intros k i x; cbn; [by intros ?%elem_of_nil|].
  intros [[= -> ->]|Hin]%elem_of_cons.
  - split; [lia|]. by rewrite Nat.sub_diag.
  - apply IH in Hin as [Hle Hx]. split; [lia|].
    by replace (i - k)%nat with (S (i - S k)) by lia.
Qed.

(** Every active player is a seat of the table. *)
Lemma active_player_seated g seat p :
  (seat, p) ∈ get_active_players g → players g !! seat = Some p.
Proof.
  unfold get_active_players, seated.
  intros [_ Hin]%list_elem_of_filter.
  apply enumerate_from_lookup in Hin as [_ Hp]. by rewrite Nat.sub_0_r in Hp.
Qed.

(** An accepted action that reaches the round-completion check with one
    active player left ends the hand there: the pot is credited to that
    player, no card is dealt. *)
Lemma lone_player_wins g w p :
  get_active_players g = [(w, p)] →
  ∃ g', _check_betting_round_complete g = Some g'
        ∧ state g' = FINISHED
        ∧ players g' = <[w := Player.add_chips (pot g) p]> (players g)
        ∧ winners g' = [(w, pot g)]
        ∧ community_cards g' = community_cards g
        ∧ deck g' = deck g.
Proof.
  intros Hactive.
  assert (players g !! w = Some p) as Hp
    by (apply active_player_seated; rewrite Hactive; by left).
  unfold _check_betting_round_complete, update_player.
  rewrite Hactive, Hp. cbn. eexists. split; [done|]. by cbn.
Qed.

(** ** Side pots *)
Lemma insert_geb_sorted x l :
  StronglySorted (λ a b, b <= a) l →
  StronglySorted (λ a b, b <= a) (Py.insert_by (λ a b, Z.leb b a) x l).
Proof.
  induction 1 as [|y l Hl IH Hy]; cbn; [by repeat constructor|].
  destruct (Z.leb_spec y x).
  - constructor; [by constructor|]. constructor; [done|].
    eapply Forall_impl; [exact Hy|]. cbn. lia.
  - constructor; [done|]. rewrite insert_by_permutation.
    constructor; [lia | done].
Qed.

Lemma sorted_reverse_strongly_sorted l :
  StronglySorted (λ a b, b <= a) (Py.sorted_reverse l).
Proof.
  induction l as [|x l IH]; cbn; [constructor|]. by apply insert_geb_sorted.
Qed.

(** The distinct amounts in descending order, as [_calculate_side_pots]
    lists them, are strictly descending. *)
Lemma bet_amounts_descending (amounts : list Z) :
  StronglySorted (λ a b, b < a) (Py.sorted_reverse (Py.set amounts)).
Proof.
  pose proof (sorted_reverse_strongly_sorted (Py.set amounts)) as Hs.
  assert (NoDup (Py.sorted_reverse (Py.set amounts))) as Hnd.
  { unfold Py.sorted_reverse. rewrite sort_by_permutation. apply NoDup_remove_dups. }
  induction Hs as [|x l Hl IH Hx]; [constructor|].
  apply NoDup_cons in Hnd as [Hx' Hnd]. constructor; [by apply IH|].
  rewrite Forall_forall in Hx. apply Forall_forall. intros y Hy.
  specialize (Hx y Hy). assert (y ≠ x) by by intros ->. lia.
Qed.

(** Past its first iteration the loop of [_calculate_side_pots] appends
    nothing: every later difference [bet_amount - prev_bet] is negative. *)
Lemma side_pot_loop_tail active_players (rest : list Z) :
  ∀ (seen : list Z) (prev : Z) (side_pots : list (Z * list nat)) (remaining : Z),
    StronglySorted (λ a b, b < a) ((seen ++ [prev]) ++ rest) →
    side_pot_loop active_players ((seen ++ [prev]) ++ rest)
      (length (seen ++ [prev])) rest side_pots remaining
    = Some side_pots.
Proof.
  induction rest as [|b rest IH]; intros seen prev pots remaining Hs; cbn; [done|].
  case_decide; [done|].
  rewrite decide_False by (rewrite length_app; cbn; lia).
  replace (length (seen ++ [prev]) - 1)%nat with (length seen)
    by (rewrite length_app; cbn; lia).
  assert (b < prev) as Hlt.
  { apply (StronglySorted_app_1_elem_of _ _ _ prev b Hs).
    - apply elem_of_app. right. by left.
    - by left. }
  rewrite <- (assoc app), lookup_app_r by lia.
  rewrite Nat.sub_diag. cbn.
  rewrite decide_False by nia.
  pose proof (IH (seen ++ [prev]) b pots remaining) as IH'.
  rewrite <- !(assoc app) in IH'. cbn in IH'.
  rewrite length_app in *. cbn [length] in *.
  rewrite <- !(assoc app) in *. cbn [app] in *.
  replace (S (length seen + 1)) with (length seen + 2)%nat by lia.
  by apply IH'.
Qed.

(** Whatever the commitments, the engine builds at most one side pot. *)
Lemma at_most_one_side_pot g g' :
  get_active_players g ≠ [] → _calculate_side_pots g = Some g' →
  (length (side_pots g') <= 1)%nat.
Proof.
  unfold _calculate_side_pots. intros Hactive.
  destruct (get_active_players g) as [|a active] eqn:Ha; [done|].
  pose proof (bet_amounts_descending
                (Player.total_bet_this_round <$> (a :: active).*2)) as Hs.
  destruct (Py.sorted_reverse _) as [|b rest] eqn:Hb.
  - cbn. intros Heq. apply (inj Some) in Heq. subst g'. cbn. lia.
  - pose proof (λ pots rem, side_pot_loop_tail (a :: active) rest [] b pots rem Hs)
      as Htail. cbn in Htail.
    cbn [side_pot_loop]. rewrite (decide_True (P := 0%nat = 0%nat)) by done.
    cbn [mbind option_bind].
    repeat case_decide; rewrite ?Htail; cbn [mbind option_bind];
      intros Heq; apply (inj Some) in Heq; subst g'; cbn; lia.
Qed.

(** ** Played hands *)
(** C1.  What [_calculate_side_pots] computes for three all-in players who
    committed 200, 100 and 50: a single layer of 200 for the largest
    committer alone, where the tiers of the spec are (150, all three),
    (100, the two larger committers) and the last 100 for the largest
    committer.  The same single layer comes out on the river of a played
    hand, where the pot also holds the 30 chips of the earlier streets. *)
Theorem side_pots_of_three_all_ins :
  side_pots <$> _calculate_side_pots three_all_in = Some [(200, [0%nat])]
  ∧ spec_side_pots three_all_in
    = [(150, [0; 1; 2]%nat); (100, [0; 1]%nat); (100, [0%nat])]
  ∧ (λ rg : Returned * TexasHoldemGame,
       (Player.total_bet_this_round <$> players rg.2, pot rg.2, side_pots rg.2))
      <$> play uneven_stacks river_all_ins
     = Some ([200; 100; 50], 380, [(200, [0%nat])]).
Proof. split_and!; vm_compute; reflexivity. Qed.

(** C2.  A heads-up hand played from 2000 chips: stacks plus pot stay at
    2000 after [start_hand] and after each of the first six actions; the
    river call that ends the hand leaves 1980 chips in the stacks, with the
    pot field still at 220. *)
Theorem chips_lost_at_showdown :
  total_stacks heads_up = 2000
  ∧ (λ k, (λ rg : Returned * TexasHoldemGame,
             (state rg.2, total_stacks rg.2 + pot rg.2))
            <$> play heads_up (take k river_bet_called)) <$> seq 0 7
    = replicate 7 (Some (IN_PROGRESS, 2000))
  ∧ (λ rg : Returned * TexasHoldemGame,
       (succeeded rg.1, state rg.2, total_stacks rg.2, pot rg.2))
      <$> play heads_up river_bet_called
    = Some (true, FINISHED, 1980, 220).
Proof. split_and!; vm_compute; reflexivity. Qed.

(** C3.  Both players hold the same flush (the board plays).  With no side
    pots the whole pot of 20 goes to seat 0; with the layer (200, both
    seats) the whole layer goes to seat 0.  Seat 1 is credited nothing in
    either hand.  In the three-handed hand the layer (200, seat 0) is
    awarded to nobody: its only contributor is ranked last overall and the
    winner list of the layer comes out empty. *)
Theorem tied_showdown_not_split :
  (λ rg : Returned * TexasHoldemGame,
     ((λ p, evaluate_hand (Player.hand p ++ community_cards rg.2)) <$> players rg.2,
      state rg.2, pot rg.2, side_pots rg.2, winners rg.2,
      Player.chips <$> players rg.2))
    <$> play heads_up river_checked
  = Some ([Some (FLUSH, [13; 11; 9; 8; 7]); Some (FLUSH, [13; 11; 9; 8; 7])],
          FINISHED, 20, [], [(0%nat, 20)], [1010; 990])
  ∧ (λ rg : Returned * TexasHoldemGame,
       (state rg.2, pot rg.2, side_pots rg.2, winners rg.2,
        Player.chips <$> players rg.2))
      <$> play heads_up river_bet_called
    = Some (FINISHED, 220, [(200, [0%nat; 1%nat])], [(0%nat, 200)], [1090; 890])
  ∧ (λ rg : Returned * TexasHoldemGame,
       (state rg.2, pot rg.2, side_pots rg.2, winners rg.2,
        Player.chips <$> players rg.2))
      <$> play uneven_stacks river_all_ins
    = Some (FINISHED, 380, [(200, [0%nat])], [], [0; 0; 0]).
Proof. split_and!; vm_compute; reflexivity. Qed.

(** C4.  Facing a table bet of 20 with 5 already committed and 17 behind,
    the all-in brings the player's commitment to 22; the table bet stays at
    20 and the earlier raiser stays in the acted-set. *)
Theorem short_all_in_not_a_raise :
  (λ rg : Returned * TexasHoldemGame,
     (current_bet rg.2, Player.current_bet <$> players rg.2,
      Player.chips <$> players rg.2, get_current_player rg.2))
    <$> play short_small_blind [(1%nat, Player.RAISE, 10)]
  = Some (20, [10; 20; 5], [990; 980; 17], Some 2%nat)
  ∧ (λ rg : Returned * TexasHoldemGame,
       (succeeded rg.1, betting_round rg.2, current_bet rg.2,
        Player.current_bet <$> players rg.2, Player.chips <$> players rg.2,
        bool_decide ("p1" ∈ acted_this_round rg.2),
        bool_decide ("p2" ∈ acted_this_round rg.2)))
      <$> play short_small_blind [(1%nat, Player.RAISE, 10); (2%nat, Player.ALL_IN, 0)]
    = Some (true, PRE_FLOP, 20, [10; 20; 22], [990; 980; 0], true, true).
Proof. split; vm_compute; reflexivity. Qed.

(** C6.  Three-handed before the flop, the first two players to act fold.
    The second fold is accepted and leaves seat 2 as the only active
    player, yet the hand is still IN_PROGRESS, the pot of 15 is not
    credited and no winner is recorded. *)
Theorem lone_player_left_in_progress :
  (λ rg : Returned * TexasHoldemGame,
     (succeeded rg.1, state rg.2, (get_active_players rg.2).*1,
      Player.chips <$> players rg.2, pot rg.2, winners rg.2))
    <$> play three_handed [(1%nat, Player.FOLD, 0); (0%nat, Player.FOLD, 0)]
  = Some (true, IN_PROGRESS, [2%nat], [990; 1000; 995], 15, []).
Proof. vm_compute; reflexivity. Qed.
